(** * PriceHawk: the Avito ingestion endpoint

    A shallow embedding of [backend/apps/tracking/views.py] (the view
    [ingest_avito] and its helper [_valid_signature]) over the schema of
    [backend/apps/tracking/models.py] ([Ad], [PricePoint]).

    What is modelled and how:
    - JSON values are an inductive type; Python's [None] is JSON [null];
      numbers are integers (a number with a fraction or an exponent has no
      representation here).
    - A [str] that comes off the wire (the body, a header value, the
      secret) is a string of bytes; a header value is what the server
      makes of its bytes in Latin-1, one character per byte.
    - The database is a record of two tables.  The ORM calls of the view
      are functions in a state-and-exception monad over that record; an
      exception keeps the rows written so far, and [transaction_atomic]
      is the only place where they are thrown away.
    - The constraints that [models.py] declares on the two tables are
      enforced on writes: the primary key of [Ad], the two
      [UniqueConstraint]s, and NOT NULL on every column that is not
      declared [null=True].
    - [hmac ... hexdigest], [bytes.decode] and [json.loads] are library
      code: they are parameters of the development.
    - The pair (source, external_id) of an [Ad] is kept and compared as
      the text that a [CharField] makes of a value ([str] of what is not
      a [str]), and [target_id] as the integer that the key column makes
      of it; a [target_id] without an integer reading is kept as it is.
    - Every other column keeps the JSON value handed to it.  What a
      column type does to a value beyond NOT NULL (the [ValidationError]
      of a [BooleanField], [DecimalField] or [DateTimeField] for a value
      it cannot read, the reading of text as a [Decimal] or as an
      instant when [PricePoint] rows are compared, the length of a text)
      and the rows of [ParseTarget] behind the foreign key of [target]
      are outside the embedding: where the code raises for one of these,
      the embedding goes on.  The statements about what a write leaves
      behind are therefore stated for a turn or a request that ends well.
    - The clock is read once per request. *)

From Stdlib Require Import ZArith List String Ascii Bool Arith Lia.
From Stdlib Require Import DecimalString.
Import ListNotations.

Local Open Scope string_scope.
Local Open Scope list_scope.

(** ** JSON values, as [json.loads] returns them *)

#[warnings="-register-all"]
Inductive json : Type :=
| JNull : json
| JBool : bool -> json
| JNum : Z -> json
| JStr : string -> json
| JArr : list json -> json
| JObj : list (string * json) -> json.

Fixpoint json_eq_dec (x y : json) {struct x} : {x = y} + {x <> y}.
Proof.
  decide equality.
  - apply Bool.bool_dec.
  - apply Z.eq_dec.
  - apply string_dec.
  - apply (list_eq_dec json_eq_dec).
  - apply list_eq_dec. decide equality. apply string_dec.
Defined.

Definition json_eqb (x y : json) : bool :=
  if json_eq_dec x y then true else false.

(** ** The Python operations the view applies to JSON values *)

Module Py.

(** Exceptions that reach the framework when nothing catches them. *)
Inductive exn : Type :=
| TypeError
| AttributeError
| UnicodeDecodeError
| IntegrityError
| MultipleObjectsReturned.

Inductive result (A : Type) : Type :=
| Ok : A -> result A
| Raise : exn -> result A.
Arguments Ok {A} _.
Arguments Raise {A} _.

(** [bool(v)]: the truth value of a JSON value. *)
Definition truthy (v : json) : bool :=
  match v with
  | JNull => false
  | JBool b => b
  | JNum z => negb (Z.eqb z 0)
  | JStr s => negb (String.eqb s "")
  | JArr l => match l with [] => false | _ => true end
  | JObj l => match l with [] => false | _ => true end
  end.

(** The binding of a key in a [dict]. *)
Fixpoint lookup (d : list (string * json)) (k : string) : option json :=
  match d with
  | [] => None
  | (k', v) :: d' => if String.eqb k' k then Some v else lookup d' k
  end.

(** [d.get(k, default)] on a [dict]. *)
Definition dict_get (d : list (string * json)) (k : string) (default : json)
  : json :=
  match lookup d k with
  | Some v => v
  | None => default
  end.

(** [v.get(k, default)] on any JSON value: only a [dict] has [get]. *)
Definition get (v : json) (k : string) (default : json) : result json :=
  match v with
  | JObj d => Ok (dict_get d k default)
  | _ => Raise AttributeError
  end.

(** The elements [for item in v] visits: a list gives its elements, a
    [dict] its keys, a [str] its characters; nothing else iterates. *)
Definition iter (v : json) : result (list json) :=
  match v with
  | JArr l => Ok l
  | JObj d => Ok (map (fun kv => JStr (fst kv)) d)
  | JStr s => Ok (map (fun c => JStr (String c EmptyString))
                      (list_ascii_of_string s))
  | _ => Raise TypeError
  end.

(** [str.isascii()]. *)
Definition is_ascii (s : string) : bool :=
  forallb (fun c => Nat.ltb (nat_of_ascii c) 128) (list_ascii_of_string s).

(** [hmac.compare_digest(a, b)] on two [str]: it refuses text that is
    not ASCII with a [TypeError]. *)
Definition compare_digest (a b : string) : result bool :=
  if is_ascii a && is_ascii b then Ok (String.eqb a b)
  else Raise TypeError.

End Py.
Import Py.

(** ** The schema: [models.py] *)

(** A row of [Ad].  [ad_id] is the primary key that Django adds. *)
Record Ad : Type := mkAd {
  ad_id : nat;
  ad_source : json;
  ad_external_id : json;
  ad_target_id : json;
  ad_title : json;
  ad_url : json;
  ad_seller_name : json;
  ad_seller_id : json;
  ad_location : json;
  ad_currency : json;
  ad_price_current : json;
  ad_posted_at : json;
  ad_is_active : json;
  ad_last_seen_at : string;
  ad_created_at : string
}.

(** A row of [PricePoint]; [pp_ad] is the primary key of the owning [Ad]. *)
Record PricePoint : Type := mkPricePoint {
  pp_ad : nat;
  pp_price : json;
  pp_currency : json;
  pp_collected_at : json
}.

(** The two tables, and the next value of the [Ad] key sequence. *)
Record Store : Type := mkStore {
  ad_rows : list Ad;
  price_point_rows : list PricePoint;
  next_ad_id : nat
}.

Definition empty_store : Store := mkStore [] [] 1.

Definition not_null (v : json) : bool :=
  match v with JNull => false | _ => true end.

(** NOT NULL on [Ad]: every column but [target], [price_current] and
    [posted_at], which are declared [null=True]. *)
Definition ad_not_null (a : Ad) : bool :=
  not_null (ad_source a) && not_null (ad_external_id a)
  && not_null (ad_title a) && not_null (ad_url a)
  && not_null (ad_seller_name a) && not_null (ad_seller_id a)
  && not_null (ad_location a) && not_null (ad_currency a)
  && not_null (ad_is_active a).

(** NOT NULL on [PricePoint]: every column. *)
Definition pp_not_null (p : PricePoint) : bool :=
  not_null (pp_price p) && not_null (pp_currency p)
  && not_null (pp_collected_at p).

(** *** The text of a [CharField]

    A [CharField] keeps text: what is not a [str] and not [None] goes
    through [str] on its way into a lookup and into a row (123 and the
    text [123] are one value).  [py_repr] is [repr] on the values that
    [json.loads] returns, exact on ASCII text. *)

Definition double_quote : ascii := ascii_of_nat 34.

Definition has_char (c : ascii) (s : string) : bool :=
  existsb (Ascii.eqb c) (list_ascii_of_string s).

Definition repr_hex (n : nat) : ascii :=
  nth n (list_ascii_of_string "0123456789abcdef") "0"%char.

Definition backslash : ascii := ascii_of_nat 92.

(** One character of a [str] inside its quotes [q]. *)
Definition repr_char (q c : ascii) : string :=
  let n := nat_of_ascii c in
  let escaped (x : ascii) := String backslash (String x EmptyString) in
  if Ascii.eqb c q then escaped c
  else if Nat.eqb n 92 then escaped backslash
  else if Nat.eqb n 10 then escaped "n"%char
  else if Nat.eqb n 13 then escaped "r"%char
  else if Nat.eqb n 9 then escaped "t"%char
  else if Nat.ltb n 32 || Nat.eqb n 127
  then String backslash
         (String "x"%char (String (repr_hex (n / 16))
                        (String (repr_hex (n mod 16)) EmptyString)))
  else String c EmptyString.

(** [repr] of a [str]: single quotes, unless the text has one and has no
    double quote. *)
Definition repr_str (s : string) : string :=
  let q := if has_char "'"%char s && negb (has_char double_quote s)
           then double_quote else "'"%char in
  String q (String.concat EmptyString
              (map (repr_char q) (list_ascii_of_string s))
            ++ String q EmptyString)%string.

Fixpoint py_repr (v : json) : string :=
  match v with
  | JNull => "None"
  | JBool b => if b then "True" else "False"
  | JNum z => NilZero.string_of_int (Z.to_int z)
  | JStr s => repr_str s
  | JArr l => ("[" ++ String.concat ", " (map py_repr l) ++ "]")%string
  | JObj d =>
      ("{" ++ String.concat ", "
                (map (fun kv : string * json =>
                        let (k, x) := kv in
                        (repr_str k ++ ": " ++ py_repr x)%string) d)
           ++ "}")%string
  end.

(** [CharField.to_python]: [None] stays, a [str] stays, anything else
    becomes its [str]. *)
Definition char_value (v : json) : option string :=
  match v with
  | JNull => None
  | JStr s => Some s
  | _ => Some (py_repr v)
  end.

(** Two values that a [CharField] does not tell apart. *)
Definition same_text (u v : json) : bool :=
  match char_value u, char_value v with
  | Some a, Some b => String.eqb a b
  | None, None => true
  | _, _ => false
  end.

(** The value as the column holds it. *)
Definition stored_text (v : json) : json :=
  match char_value v with
  | Some t => JStr t
  | None => JNull
  end.

(** *** The key of a [ForeignKey]

    [target_id] goes into the integer column of the key of [ParseTarget]:
    [None] and the empty text are NULL, and any other value goes through
    [int] (7 and the text [7] are one key).  [py_int] is [int] on a
    [str] of ASCII characters: white space around, a sign, decimal
    digits, single underscores between digits. *)

(** [str.isspace] on an ASCII character. *)
Definition is_space (c : ascii) : bool :=
  let n := nat_of_ascii c in
  (Nat.leb 9 n && Nat.leb n 13) || (Nat.leb 28 n && Nat.leb n 32).

Definition is_digit (c : ascii) : bool :=
  let n := nat_of_ascii c in Nat.leb 48 n && Nat.leb n 57.

Fixpoint lstrip (l : list ascii) : list ascii :=
  match l with
  | c :: l' => if is_space c then lstrip l' else l
  | [] => []
  end.

Definition strip (l : list ascii) : list ascii :=
  rev (lstrip (rev (lstrip l))).

(** The digits of a numeral; [after_digit] says that the character
    before was a digit, which an underscore and the end ask for. *)
Fixpoint digits_value (acc : Z) (after_digit : bool) (l : list ascii)
  : option Z :=
  match l with
  | [] => if after_digit then Some acc else None
  | c :: l' =>
      if is_digit c
      then digits_value (10 * acc + Z.of_nat (nat_of_ascii c - 48)) true l'
      else if Ascii.eqb c "_"%char && after_digit
      then digits_value acc false l'
      else None
  end.

Definition py_int (s : string) : option Z :=
  match strip (list_ascii_of_string s) with
  | [] => None
  | c :: l =>
      if Ascii.eqb c "-"%char then option_map Z.opp (digits_value 0 false l)
      else if Ascii.eqb c "+"%char then digits_value 0 false l
      else digits_value 0 false (c :: l)
  end.

(** The value of the column [target_id] for a value handed to it.  A
    value that [int] refuses stays as it is: the code raises for it. *)
Definition fk_value (v : json) : json :=
  match v with
  | JStr s =>
      if String.eqb s "" then JNull
      else match py_int s with
           | Some n => JNum n
           | None => v
           end
  | JBool b => JNum (if b then 1 else 0)
  | _ => v
  end.

(** [ad_source_external_id_uniq], on the text of the two columns. *)
Definition ad_same_key (source external_id : json) (a : Ad) : bool :=
  same_text (ad_source a) source && same_text (ad_external_id a) external_id.

(** [price_point_ad_dt_price_uniq]. *)
Definition pp_same_key (ad : nat) (collected_at price : json) (p : PricePoint)
  : bool :=
  Nat.eqb (pp_ad p) ad && json_eqb (pp_collected_at p) collected_at
  && json_eqb (pp_price p) price.

(** The row that an UPDATE by primary key writes over [a]. *)
Definition written (obj a : Ad) : Ad :=
  if Nat.eqb (ad_id a) (ad_id obj) then obj else a.

(** The schema as an invariant of the store: the primary key is unique
    and below the sequence, and the two unique constraints hold. *)
Record wf (db : Store) : Prop := mk_wf {
  wf_ids : NoDup (map ad_id (ad_rows db));
  wf_fresh : Forall (fun a => ad_id a < next_ad_id db) (ad_rows db);
  wf_ad_key : forall s e,
      List.length (filter (ad_same_key s e) (ad_rows db)) <= 1;
  wf_pp_key : forall ad t p,
      List.length (filter (pp_same_key ad t p) (price_point_rows db)) <= 1
}.

(** ** The database monad *)

Definition M (A : Type) : Type := Store -> result A * Store.

Definition ret {A : Type} (a : A) : M A := fun db => (Ok a, db).

Definition raise {A : Type} (e : exn) : M A := fun db => (Raise e, db).

Definition bind {A B : Type} (m : M A) (f : A -> M B) : M B :=
  fun db =>
    match m db with
    | (Ok a, db') => f a db'
    | (Raise e, db') => (Raise e, db')
    end.

Definition lift {A : Type} (r : result A) : M A := fun db => (r, db).

Declare Scope db_scope.
Delimit Scope db_scope with db.
Notation "x <- m ;; k" := (bind m (fun x => k))
  (at level 100, m at next level, right associativity) : db_scope.
Local Open Scope db_scope.

(** [with transaction.atomic(): body]: when the body raises, the rows go
    back to what they were on entry and the exception goes on. *)
Definition transaction_atomic {A : Type} (body : M A) : M A :=
  fun db =>
    match body db with
    | (Ok a, db') => (Ok a, db')
    | (Raise e, _) => (Raise e, db)
    end.

(** [for x in l: acc = body x acc]. *)
Fixpoint for_each {A S : Type} (body : A -> S -> M S) (l : list A) (acc : S)
  : M S :=
  match l with
  | [] => ret acc
  | x :: l' => acc' <- body x acc ;; for_each body l' acc'
  end.

(** ** The ORM calls of the view *)

(** The [defaults] dictionary that the view hands to [update_or_create]. *)
Record AdDefaults : Type := mkAdDefaults {
  d_title : json;
  d_url : json;
  d_seller_name : json;
  d_seller_id : json;
  d_location : json;
  d_currency : json;
  d_price_current : json;
  d_posted_at : json;
  d_is_active : json;
  d_target_id : json
}.

(** [Ad.objects]. *)
Module AdObjects.

(** [get(source=..., external_id=...)]; [None] stands for
    [Ad.DoesNotExist], which its only caller catches. *)
Definition get (source external_id : json) : M (option Ad) :=
  fun db =>
    match filter (ad_same_key source external_id) (ad_rows db) with
    | [] => (Ok None, db)
    | [a] => (Ok (Some a), db)
    | _ :: _ :: _ => (Raise MultipleObjectsReturned, db)
    end.

(** The row [create] builds: [auto_now_add] and [auto_now] fill the two
    timestamps. *)
Definition new_row (id : nat) (now : string) (source external_id : json)
    (defaults : AdDefaults) : Ad :=
  {| ad_id := id;
     ad_source := stored_text source;
     ad_external_id := stored_text external_id;
     ad_target_id := fk_value (d_target_id defaults);
     ad_title := d_title defaults;
     ad_url := d_url defaults;
     ad_seller_name := d_seller_name defaults;
     ad_seller_id := d_seller_id defaults;
     ad_location := d_location defaults;
     ad_currency := d_currency defaults;
     ad_price_current := d_price_current defaults;
     ad_posted_at := d_posted_at defaults;
     ad_is_active := d_is_active defaults;
     ad_last_seen_at := now;
     ad_created_at := now |}.

(** [create] with the lookup arguments and the defaults: an INSERT under
    the constraints of the table. *)
Definition create (now : string) (source external_id : json)
    (defaults : AdDefaults) : M Ad :=
  fun db =>
    let row := new_row (next_ad_id db) now source external_id defaults in
    if negb (ad_not_null row) then (Raise IntegrityError, db)
    else if existsb (ad_same_key source external_id) (ad_rows db)
    then (Raise IntegrityError, db)
    else (Ok row,
          {| ad_rows := ad_rows db ++ [row];
             price_point_rows := price_point_rows db;
             next_ad_id := S (next_ad_id db) |}).

(** [setattr(obj, k, v)] for every entry of [defaults]; [auto_now]
    refreshes [last_seen_at] when the object is saved. *)
Definition set_defaults (obj : Ad) (now : string) (defaults : AdDefaults)
  : Ad :=
  {| ad_id := ad_id obj;
     ad_source := ad_source obj;
     ad_external_id := ad_external_id obj;
     ad_target_id := fk_value (d_target_id defaults);
     ad_title := d_title defaults;
     ad_url := d_url defaults;
     ad_seller_name := d_seller_name defaults;
     ad_seller_id := d_seller_id defaults;
     ad_location := d_location defaults;
     ad_currency := d_currency defaults;
     ad_price_current := d_price_current defaults;
     ad_posted_at := d_posted_at defaults;
     ad_is_active := d_is_active defaults;
     ad_last_seen_at := now;
     ad_created_at := ad_created_at obj |}.

(** [obj.save()] of a row that exists: an UPDATE of the row with the
    primary key of [obj].  The key columns keep their values, so of the
    constraints only NOT NULL can fail. *)
Definition save (obj : Ad) : M unit :=
  fun db =>
    if negb (ad_not_null obj) then (Raise IntegrityError, db)
    else (Ok tt,
          {| ad_rows := map (written obj) (ad_rows db);
             price_point_rows := price_point_rows db;
             next_ad_id := next_ad_id db |}).

(** [update_or_create(source=..., external_id=..., defaults=...)].
    Django catches the [IntegrityError] of a failed INSERT to look the
    row up once more; with one writer that second look finds what the
    first did, and the error is raised again. *)
Definition update_or_create (now : string) (source external_id : json)
    (defaults : AdDefaults) : M (Ad * bool) :=
  found <- get source external_id ;;
  match found with
  | None =>
      obj <- create now source external_id defaults ;;
      ret (obj, true)
  | Some obj =>
      let obj' := set_defaults obj now defaults in
      _ <- save obj' ;;
      ret (obj', false)
  end.

End AdObjects.

(** [PricePoint.objects]. *)
Module PricePointObjects.

Definition same_row (ad : nat) (price currency collected_at : json)
    (p : PricePoint) : bool :=
  Nat.eqb (pp_ad p) ad && json_eqb (pp_price p) price
  && json_eqb (pp_currency p) currency
  && json_eqb (pp_collected_at p) collected_at.

(** [get(ad=..., price=..., currency=..., collected_at=...)]. *)
Definition get (ad : nat) (price currency collected_at : json)
  : M (option PricePoint) :=
  fun db =>
    match filter (same_row ad price currency collected_at)
                 (price_point_rows db) with
    | [] => (Ok None, db)
    | [p] => (Ok (Some p), db)
    | _ :: _ :: _ => (Raise MultipleObjectsReturned, db)
    end.

(** [create] with the four arguments: an INSERT under the constraints
    of the table. *)
Definition create (ad : nat) (price currency collected_at : json)
  : M PricePoint :=
  fun db =>
    let row := mkPricePoint ad price currency collected_at in
    if negb (pp_not_null row) then (Raise IntegrityError, db)
    else if existsb (pp_same_key ad collected_at price)
                    (price_point_rows db)
    then (Raise IntegrityError, db)
    else (Ok row,
          {| ad_rows := ad_rows db;
             price_point_rows := price_point_rows db ++ [row];
             next_ad_id := next_ad_id db |}).

(** [get_or_create(ad=..., price=..., currency=..., collected_at=...)]:
    all four arguments are lookup arguments.  As in
    [AdObjects.update_or_create], the [IntegrityError] of a failed
    INSERT is raised again after the second look. *)
Definition get_or_create (ad : nat) (price currency collected_at : json)
  : M (PricePoint * bool) :=
  found <- get ad price currency collected_at ;;
  match found with
  | Some p => ret (p, false)
  | None =>
      p <- create ad price currency collected_at ;;
      ret (p, true)
  end.

End PricePointObjects.

(** ** The view: [views.py] *)

Record Settings : Type := mkSettings {
  INGEST_HMAC_SECRET : option string
}.

(** What the view reads of a request: the [X-Signature] header, if the
    request has one, and the raw body. *)
Record Request : Type := mkRequest {
  X_Signature : option string;
  body : string
}.

Record Response : Type := mkResponse {
  status : nat;
  data : json
}.

(** The three counters of the view. *)
Record Counters : Type := mkCounters {
  created : nat;
  updated : nat;
  price_points : nat
}.

Definition int (b : bool) : nat := if b then 1 else 0.

(** Lines 103-114: the [defaults] of one item. *)
Definition item_defaults (item : list (string * json)) (target_id : json)
  : AdDefaults :=
  {| d_title := dict_get item "title" (JStr "");
     d_url := dict_get item "url" (JStr "");
     d_seller_name := dict_get item "seller_name" (JStr "");
     d_seller_id := dict_get item "seller_id" (JStr "");
     d_location := dict_get item "location" (JStr "");
     d_currency := dict_get item "currency" (JStr "RUB");
     d_price_current := dict_get item "price" JNull;
     d_posted_at := dict_get item "posted_at" JNull;
     d_is_active := dict_get item "is_active" (JBool true);
     d_target_id := target_id |}.

(** Lines 100-128: the body of the loop, for one item. *)
Definition process_item (now : string) (source target_id fetched_at : json)
    (item : json) (c : Counters) : M Counters :=
  match item with
  | JObj d =>
      let ext_id := dict_get d "external_id" JNull in
      if negb (truthy ext_id) then ret c
      else
        r <- AdObjects.update_or_create now source ext_id
               (item_defaults d target_id) ;;
        let (ad, is_created) := r in
        let c1 := {| created := created c + int is_created;
                     updated := updated c + int (negb is_created);
                     price_points := price_points c |} in
        if not_null (dict_get d "price" JNull) then
          _ <- PricePointObjects.get_or_create (ad_id ad)
                 (dict_get d "price" JNull)
                 (dict_get d "currency" (JStr "RUB")) fetched_at ;;
          ret {| created := created c1;
                 updated := updated c1;
                 price_points := price_points c1 + 1 |}
        else ret c1
  | _ => raise AttributeError
  end.

(** Lines 99-128: the block under [with transaction.atomic()]. *)
Definition process_items (now : string) (source target_id fetched_at : json)
    (items : json) (c : Counters) : M Counters :=
  l <- lift (Py.iter items) ;;
  for_each (process_item now source target_id fetched_at) l c.

Definition accepted (c : Counters) : Response :=
  {| status := 202;
     data := JObj [("status", JStr "accepted");
                   ("created", JNum (Z.of_nat (created c)));
                   ("updated", JNum (Z.of_nat (updated c)));
                   ("price_points", JNum (Z.of_nat (price_points c)))] |}.

Definition invalid_signature : Response :=
  {| status := 401; data := JObj [("detail", JStr "Invalid signature")] |}.

Definition invalid_json : Response :=
  {| status := 400; data := JObj [("detail", JStr "Invalid JSON")] |}.

(** Lines 92-138: the view from the parsed payload on. *)
Definition ingest_payload (now : string) (payload : json) : M Response :=
  items <- lift (Py.get payload "items" (JArr [])) ;;
  source <- lift (Py.get payload "source" (JStr "avito")) ;;
  target_id <- lift (Py.get payload "target_id" JNull) ;;
  fetched <- lift (Py.get payload "fetched_at" JNull) ;;
  let fetched_at := if truthy fetched then fetched else JStr now in
  c <- transaction_atomic
         (process_items now source target_id fetched_at items
            (mkCounters 0 0 0)) ;;
  ret (accepted c).

Section View.

(** [hmac.new(key, msg, sha256).hexdigest()], on the bytes of the key
    and of the message. *)
Variable hexdigest : string -> string -> string.

(** [raw.decode("utf-8")]; [None] stands for [UnicodeDecodeError]. *)
Variable decode_utf8 : string -> option string.

(** [json.loads]; [None] stands for [json.JSONDecodeError]. *)
Variable json_loads : string -> option json.

Definition _valid_signature (raw_body signature secret : string)
  : result bool :=
  if String.eqb signature "" then Ok false
  else compare_digest (hexdigest secret raw_body) signature.

(** Lines 79-82: whether the request gets past the signature check. *)
Definition authenticate (settings : Settings) (request : Request)
  : result bool :=
  let signature :=
    match X_Signature request with Some s => s | None => "" end in
  match INGEST_HMAC_SECRET settings with
  | None => Ok false
  | Some secret =>
      if String.eqb secret "" then Ok false
      else _valid_signature (body request) signature secret
  end.

(** Lines 87-90: [Ok None] stands for the caught [JSONDecodeError]. *)
Definition parse (request : Request) : result (option json) :=
  match decode_utf8 (body request) with
  | None => Raise UnicodeDecodeError
  | Some text => Ok (json_loads text)
  end.

Definition ingest_avito (settings : Settings) (request : Request)
    (now : string) : M Response :=
  valid <- lift (authenticate settings request) ;;
  if negb valid then ret invalid_signature
  else
    parsed <- lift (parse request) ;;
    match parsed with
    | None => ret invalid_json
    | Some payload => ingest_payload now payload
    end.

End View.

(** ** Vocabulary of the statements *)

(** [isinstance(v, dict)]. *)
Definition is_dict (v : json) : bool :=
  match v with JObj _ => true | _ => false end.

(** No NOT NULL column of [Ad] gets a null from a lookup key and the
    [defaults]. *)
Definition accepts (source external_id : json) (defaults : AdDefaults)
  : bool :=
  not_null source && not_null external_id
  && not_null (d_title defaults) && not_null (d_url defaults)
  && not_null (d_seller_name defaults) && not_null (d_seller_id defaults)
  && not_null (d_location defaults) && not_null (d_currency defaults)
  && not_null (d_is_active defaults).

(** An item that the loop does not skip: a record with a non-empty
    [external_id]. *)
Definition has_identity (item : json) : bool :=
  match item with
  | JObj d => truthy (dict_get d "external_id" JNull)
  | _ => false
  end.

Definition external_id_of (item : json) : json :=
  match item with
  | JObj d => dict_get d "external_id" JNull
  | _ => JNull
  end.

(** An item whose price is present. *)
Definition has_price (item : json) : bool :=
  match item with
  | JObj d => not_null (dict_get d "price" JNull)
  | _ => false
  end.

(** An item that the loop processes and whose price is present. *)
Definition priced (item : json) : bool := has_identity item && has_price item.

(** Whether [Ad] has a row for the pair (source, external_id). *)
Definition has_ad (db : Store) (source external_id : json) : bool :=
  existsb (ad_same_key source external_id) (ad_rows db).

(** The identities of the items that the loop processes, in order. *)
Definition identities (items : list json) : list json :=
  map external_id_of (filter has_identity items).

(** The distinct identities of a batch, as [external_id] holds them,
    that have no row in [Ad]. *)
Definition unseen (db : Store) (source : json) (items : list json)
  : list json :=
  filter (fun e => negb (has_ad db source e))
         (nodup json_eq_dec (map stored_text (identities items))).

(** What the view reads of a parsed payload (lines 92-95), and the writes
    of its batch as they happen, outside any transaction. *)
Definition batch_items (d : list (string * json)) : json :=
  dict_get d "items" (JArr []).

Definition batch_source (d : list (string * json)) : json :=
  dict_get d "source" (JStr "avito").

Definition batch_target_id (d : list (string * json)) : json :=
  dict_get d "target_id" JNull.

Definition batch_fetched_at (now : string) (d : list (string * json)) : json :=
  if truthy (dict_get d "fetched_at" JNull)
  then dict_get d "fetched_at" JNull else JStr now.

Definition batch_writes (now : string) (d : list (string * json))
  : M Counters :=
  process_items now (batch_source d) (batch_target_id d)
    (batch_fetched_at now d) (batch_items d) (mkCounters 0 0 0).

(** An item is settled in a store when processing it there is bound to
    update and to find: its columns are accepted, its pair has its one
    row in [Ad], and its observation, if it has a price, has its one row
    in [PricePoint]. *)
Definition settled (source target_id fetched_at : json) (db : Store)
    (item : json) : Prop :=
  match item with
  | JObj d =>
      let e := dict_get d "external_id" JNull in
      truthy e = true ->
      accepts source e (item_defaults d target_id) = true /\
      exists obj,
        filter (ad_same_key source e) (ad_rows db) = [obj] /\
        (not_null (dict_get d "price" JNull) = true ->
         exists p,
           filter (PricePointObjects.same_row (ad_id obj)
                     (dict_get d "price" JNull)
                     (dict_get d "currency" (JStr "RUB")) fetched_at)
                  (price_point_rows db) = [p])
  | _ => False
  end.

(** The optional keys of an item, with the column each fills. *)
Inductive OptionalKey : Type :=
| Title | Url | SellerName | SellerId | Location | Currency | Price
| PostedAt | IsActive.

Definition key_name (k : OptionalKey) : string :=
  match k with
  | Title => "title"
  | Url => "url"
  | SellerName => "seller_name"
  | SellerId => "seller_id"
  | Location => "location"
  | Currency => "currency"
  | Price => "price"
  | PostedAt => "posted_at"
  | IsActive => "is_active"
  end.

(** The second argument of [item.get] on lines 104-112. *)
Definition key_default (k : OptionalKey) : json :=
  match k with
  | Title | Url | SellerName | SellerId | Location => JStr ""
  | Currency => JStr "RUB"
  | Price | PostedAt => JNull
  | IsActive => JBool true
  end.


Definition default_value (k : OptionalKey) (defaults : AdDefaults) : json :=
  match k with
  | Title => d_title defaults
  | Url => d_url defaults
  | SellerName => d_seller_name defaults
  | SellerId => d_seller_id defaults
  | Location => d_location defaults
  | Currency => d_currency defaults
  | Price => d_price_current defaults
  | PostedAt => d_posted_at defaults
  | IsActive => d_is_active defaults
  end.

Definition column (k : OptionalKey) (a : Ad) : json :=
  match k with
  | Title => ad_title a
  | Url => ad_url a
  | SellerName => ad_seller_name a
  | SellerId => ad_seller_id a
  | Location => ad_location a
  | Currency => ad_currency a
  | Price => ad_price_current a
  | PostedAt => ad_posted_at a
  | IsActive => ad_is_active a
  end.

(** ** Stand-ins for the library functions, for the examples

    The statements below hold for every [hexdigest], [decode_utf8] and
    [json_loads]; these three give the examples something to run. *)

Definition hex_digit (n : nat) : ascii :=
  nth n (list_ascii_of_string "0123456789abcdef") "0"%char.

Fixpoint hex_encode (s : string) : string :=
  match s with
  | EmptyString => EmptyString
  | String c s' =>
      String (hex_digit (nat_of_ascii c / 16))
        (String (hex_digit (nat_of_ascii c mod 16)) (hex_encode s'))
  end.

(** A digest that is the hexadecimal text of key and message. *)
Definition toy_hexdigest (key msg : string) : string :=
  hex_encode (key ++ msg).

(** A decoder for ASCII bodies. *)
Definition toy_decode (raw : string) : option string :=
  if is_ascii raw then Some raw else None.

(** A parser that knows the bodies of a table. *)
Definition toy_loads (table : list (string * json)) (text : string)
  : option json :=
  Py.lookup table text.

Definition toy_settings : Settings := mkSettings (Some "s3cr3t").

(** A request for [raw] signed with the key of [toy_settings]. *)
Definition signed (raw : string) : Request :=
  mkRequest (Some (toy_hexdigest "s3cr3t" raw)) raw.

(** A header value with one character outside ASCII (e with an acute
    accent in Latin-1). *)
Definition accented : string := String (ascii_of_nat 233) EmptyString.

(** The batch of the end-to-end example of the specification. *)
Definition chair : list (string * json) :=
  [("external_id", JStr "123"); ("title", JStr "Chair");
   ("price", JNum 500); ("currency", JStr "RUB")].

Definition chair_batch : list (string * json) :=
  [("items", JArr [JObj chair]); ("target_id", JNum 7);
   ("fetched_at", JStr "2024-01-01T00:00:00Z")].

(** The same chair at the same instant and price, in dollars. *)
Definition chair_usd : list (string * json) :=
  [("external_id", JStr "123"); ("title", JStr "Chair");
   ("price", JNum 500); ("currency", JStr "USD")].

Definition two_currency_batch : list (string * json) :=
  [("items", JArr [JObj chair; JObj chair_usd]);
   ("fetched_at", JStr "2024-01-01T00:00:00Z")].

(** An item without identity. *)
Definition anonymous : list (string * json) :=
  [("title", JStr "Table"); ("price", JNum 900)].

(** A chair, a table without identity, and the chair again at a lower
    price. *)
Definition chair_cheaper : list (string * json) :=
  [("external_id", JStr "123"); ("title", JStr "Chair, reduced");
   ("price", JNum 450)].

Definition repeat_batch : list (string * json) :=
  [("items", JArr [JObj chair; JObj anonymous; JObj chair_cheaper]);
   ("fetched_at", JStr "2024-01-02T00:00:00Z")].

(** An item whose currency is an explicit null. *)
Definition null_currency : list (string * json) :=
  [("external_id", JStr "77"); ("currency", JNull)].

Definition null_currency_batch : list (string * json) :=
  [("items", JArr [JObj null_currency])].


Definition toy_table : list (string * json) :=
  [("chair-batch", JObj chair_batch);
   ("two-currency-batch", JObj two_currency_batch);
   ("null-currency-batch", JObj null_currency_batch);
   ("repeat-batch", JObj repeat_batch);
   ("[]", JArr [])].

(** The store after the first [chair_batch], at time [t1]. *)
Definition chair_store : Store :=
  Eval vm_compute in snd (ingest_payload "t1" (JObj chair_batch) empty_store).

(** The row of the chair in [chair_store]. *)
Definition chair_row : Ad :=
  AdObjects.new_row 1 "t1" (JStr "avito") (JStr "123")
    (item_defaults chair (JNum 7)).

(** ** The read side: the other views of [views.py]

    A queryset is the list of the rows it selects, in table order; the
    [ordering] of a model is not modelled.  [request.user] is a row of
    the user model of the project, of which the views read [id] and
    [is_superuser]. *)

Record User : Type := mkUser {
  user_id : Z;
  is_superuser : bool
}.

(** A row of [ParseTarget]; [pt_owner_id] is the key of the owner. *)
Record ParseTarget : Type := mkParseTarget {
  pt_id : Z;
  pt_owner_id : Z;
  pt_source : string;
  pt_mode : string;
  pt_url : string;
  pt_city : string;
  pt_frequency_minutes : Z;
  pt_is_active : bool;
  pt_created_at : string;
  pt_last_run_at : option string;
  pt_next_run_at : option string
}.

(** [permissions.SAFE_METHODS] of the REST framework. *)
Definition SAFE_METHODS : list string := ["GET"; "HEAD"; "OPTIONS"].

Definition option_Z_eqb (x y : option Z) : bool :=
  match x, y with
  | Some a, Some b => Z.eqb a b
  | None, None => true
  | _, _ => false
  end.

Module IsOwnerOrReadOnly.

(** [has_object_permission(request, view, obj)], on the method of the
    request, [getattr(obj, "owner_id", None)] and
    [getattr(request.user, "id", None)]. *)
Definition has_object_permission (method : string)
    (owner_id user_id : option Z) : bool :=
  if existsb (String.eqb method) SAFE_METHODS then true
  else option_Z_eqb owner_id user_id.

End IsOwnerOrReadOnly.

Module ParseTargetViewSet.

(** [get_queryset]: every target for a superuser, the own targets for
    anybody else. *)
Definition get_queryset (user : User) (targets : list ParseTarget)
  : list ParseTarget :=
  if is_superuser user then targets
  else filter (fun t => Z.eqb (pt_owner_id t) (user_id user)) targets.

End ParseTargetViewSet.

(** [str.lower()], exact on ASCII letters.  Whether the result is the
    text [true] does not depend on the rest: no character outside ASCII
    has a lower case among the letters of [true]. *)
Definition lower_char (c : ascii) : ascii :=
  let n := nat_of_ascii c in
  if Nat.leb 65 n && Nat.leb n 90 then ascii_of_nat (n + 32) else c.

Fixpoint lower (s : string) : string :=
  match s with
  | EmptyString => EmptyString
  | String c s' => String (lower_char c) (lower s')
  end.

(** The three query parameters that [AdViewSet] reads; [None] is a
    parameter that the request does not have. *)
Record QueryParams : Type := mkQueryParams {
  qp_target : option string;
  qp_is_active : option string;
  qp_posted_at__gte : option string
}.

Module AdViewSet.

(** What [filter] raises for a value that its column cannot take. *)
Inductive error : Type :=
| ValueError
| ValidationError.

Inductive queryset : Type :=
| Rows : list Ad -> queryset
| Fails : error -> queryset.

(** [target_id=z]. *)
Definition has_target (z : Z) (a : Ad) : bool :=
  match ad_target_id a with
  | JNum z' => Z.eqb z' z
  | _ => false
  end.

(** [target__owner=user]: the join of the ad with its target. *)
Definition owned_by (user : User) (targets : list ParseTarget) (a : Ad)
  : bool :=
  existsb (fun t => has_target (pt_id t) a
                    && Z.eqb (pt_owner_id t) (user_id user)) targets.

Section Filters.

(** [int(value)], as the key column applies it to a lookup value;
    [None] stands for [ValueError]. *)
Variable int_of_str : string -> option Z.

(** The instants of the database, the parser that [DateTimeField]
    applies to a lookup value ([None] stands for [ValidationError]),
    and the comparison of a stored [posted_at] with an instant. *)
Variable instant : Type.
Variable parse_datetime : string -> option instant.
Variable posted_at_gte : json -> instant -> bool.

(** Lines 50-51. *)
Definition filter_target (target_id : option string) (qs : list Ad)
  : queryset :=
  match target_id with
  | None => Rows qs
  | Some s =>
      if String.eqb s "" then Rows qs
      else match int_of_str s with
           | Some z => Rows (filter (has_target z) qs)
           | None => Fails ValueError
           end
  end.

(** Lines 52-53. *)
Definition filter_is_active (is_active : option string) (qs : list Ad)
  : list Ad :=
  match is_active with
  | None => qs
  | Some v =>
      filter (fun a => json_eqb (ad_is_active a)
                         (JBool (String.eqb (lower v) "true"))) qs
  end.

(** Lines 54-56; a null [posted_at] is after nothing. *)
Definition filter_posted (posted_gte : option string) (qs : list Ad)
  : queryset :=
  match posted_gte with
  | None => Rows qs
  | Some s =>
      if String.eqb s "" then Rows qs
      else match parse_datetime s with
           | Some d =>
               Rows (filter (fun a => not_null (ad_posted_at a)
                                      && posted_at_gte (ad_posted_at a) d)
                            qs)
           | None => Fails ValidationError
           end
  end.

(** [get_queryset], over the rows of [ParseTarget] and of [Ad]. *)
Definition get_queryset (user : User) (params : QueryParams)
    (targets : list ParseTarget) (ads : list Ad) : queryset :=
  let qs := ads in
  let qs := if negb (is_superuser user)
            then filter (owned_by user targets) qs else qs in
  match filter_target (qp_target params) qs with
  | Fails e => Fails e
  | Rows qs =>
      filter_posted (qp_posted_at__gte params)
        (filter_is_active (qp_is_active params) qs)
  end.

End Filters.

End AdViewSet.

(** Stand-ins for the parsers of the read side: decimal digits, and
    instants that are their own text, compared as numbers. *)
Fixpoint toy_digits (acc : Z) (s : string) : option Z :=
  match s with
  | EmptyString => Some acc
  | String c s' =>
      let n := nat_of_ascii c in
      if Nat.leb 48 n && Nat.leb n 57
      then toy_digits (10 * acc + Z.of_nat (n - 48)) s'
      else None
  end.

Definition toy_int (s : string) : option Z :=
  match s with
  | EmptyString => None
  | _ => toy_digits 0 s
  end.

Definition toy_posted_at_gte (v : json) (d : Z) : bool :=
  match v with
  | JNum z => Z.leb d z
  | _ => false
  end.

Definition olga : User := mkUser 10 false.
Definition pavel : User := mkUser 11 false.
Definition root : User := mkUser 1 true.

Definition target_of (id owner : Z) : ParseTarget :=
  mkParseTarget id owner "avito" "listing" "https://www.avito.ru/chairs" ""
    30 true "t0" None None.

(** Target 7 is Olga's, target 9 is Pavel's. *)
Definition toy_targets : list ParseTarget := [target_of 7 10; target_of 9 11].

Definition no_params : QueryParams := mkQueryParams None None None.

(** Every price point belongs to an ad of the table: the foreign key of
    [PricePoint.ad]. *)
Definition fk_ok (db : Store) : Prop :=
  Forall (fun p => In (pp_ad p) (map ad_id (ad_rows db)))
         (price_point_rows db).

(** A body that the table of [toy_loads] does not know. *)
Definition garbled : string := "{items".

(** [a'] is the row [a] at a later time: the same key, the same pair,
    the same [created_at]. *)
Definition same_ad (a a' : Ad) : Prop :=
  ad_id a' = ad_id a /\ ad_source a' = ad_source a /\
  ad_external_id a' = ad_external_id a /\ ad_created_at a' = ad_created_at a.

(** The chair reported without [fetched_at]. *)
Definition undated_batch : list (string * json) :=
  [("items", JArr [JObj chair]); ("target_id", JNum 7)].

Definition undated_table : list (string * json) :=
  [("undated-batch", JObj undated_batch)].

(** The pair (source, e) has its one row in [Ad], and the row is tied to
    the target and carries the time. *)
Definition stamped (source target_id : json) (now : string) (db : Store)
    (e : json) : Prop :=
  exists a,
    filter (ad_same_key source e) (ad_rows db) = [a] /\
    ad_target_id a = fk_value target_id /\ ad_last_seen_at a = now.

(** No item of the list is processed under the identity [e]. *)
Definition not_seen_again (e : json) (items : list json) : Prop :=
  Forall (fun item => has_identity item = false \/
                      same_text (external_id_of item) e = false)
         items.

(** Three ads: the chair under Olga's target, a lamp that lost its
    target, and a sofa under Pavel's target that is no longer active. *)
Definition lamp_row : Ad :=
  AdObjects.new_row 2 "t1" (JStr "avito") (JStr "456")
    (item_defaults [("title", JStr "Lamp")] JNull).

Definition sofa_row : Ad :=
  AdObjects.new_row 3 "t1" (JStr "avito") (JStr "789")
    (item_defaults [("title", JStr "Sofa"); ("is_active", JBool false)]
       (JNum 9)).

Definition toy_ads : list Ad := [chair_row; lamp_row; sofa_row].




(** The chair under the number 123, without a price. *)
Definition chair_number : list (string * json) :=
  [("external_id", JNum 123); ("title", JStr "Chair, by number")].

(** The chair by its text and then by its number, for the target 7
    given as text. *)
Definition mixed_batch : list (string * json) :=
  [("items", JArr [JObj chair; JObj chair_number]);
   ("target_id", JStr "7");
   ("fetched_at", JStr "2024-01-01T00:00:00Z")].

Definition mixed_table : list (string * json) :=
  [("mixed-batch", JObj mixed_batch)].

(** * Properties *)

(** ** JSON equality *)

Lemma json_eqb_eq (x y : json) : json_eqb x y = true <-> x = y.
Proof.
  unfold json_eqb. destruct (json_eq_dec x y); split; congruence.
Qed.

Lemma json_eqb_refl (x : json) : json_eqb x x = true.
Proof. apply json_eqb_eq. reflexivity. Qed.

Lemma json_eqb_neq (x y : json) : json_eqb x y = false <-> x <> y.
Proof.
  unfold json_eqb. destruct (json_eq_dec x y); split; congruence.
Qed.

Lemma not_null_true (v : json) : not_null v = true <-> v <> JNull.
Proof. destruct v; simpl; split; congruence. Qed.

Lemma truthy_not_null (v : json) : truthy v = true -> not_null v = true.
Proof. destruct v; simpl; congruence. Qed.

(** ** Lists of rows *)

Lemma filter_ext_in_map {A : Type} (P : A -> bool) (f : A -> A) (l : list A) :
  (forall a, In a l -> P (f a) = P a) ->
  filter P (map f l) = map f (filter P l).
Proof.
  induction l as [|a l IH]; intros H; simpl; [reflexivity|].
  rewrite (H a (or_introl eq_refl)).
  rewrite IH by (intros b Hb; apply H; right; exact Hb).
  destruct (P a); reflexivity.
Qed.

Lemma NoDup_map_inj {A B : Type} (f : A -> B) (l : list A) (a b : A) :
  NoDup (map f l) -> In a l -> In b l -> f a = f b -> a = b.
Proof.
  induction l as [|x l IH]; simpl; intros Hnd Ha Hb Hf; [contradiction|].
  inversion Hnd as [|y ys Hnotin Hnd']; subst.
  destruct Ha as [Ha|Ha], Hb as [Hb|Hb]; subst.
  - reflexivity.
  - exfalso. apply Hnotin. rewrite Hf. apply in_map. exact Hb.
  - exfalso. apply Hnotin. rewrite <- Hf. apply in_map. exact Ha.
  - apply IH; assumption.
Qed.

Lemma filter_nil_existsb {A : Type} (P : A -> bool) (l : list A) :
  filter P l = [] <-> existsb P l = false.
Proof.
  induction l as [|a l IH]; simpl; [tauto|].
  destruct (P a); simpl; [split; discriminate|exact IH].
Qed.

Lemma filter_In_head {A : Type} (P : A -> bool) (l : list A) (a : A)
    (r : list A) :
  filter P l = a :: r -> In a l /\ P a = true.
Proof.
  intros H. apply filter_In. rewrite H. left. reflexivity.
Qed.

(** ** The keys of the two tables *)

Lemma same_text_iff (u v : json) :
  same_text u v = true <-> char_value u = char_value v.
Proof.
  unfold same_text.
  destruct (char_value u) as [a|], (char_value v) as [b|];
    try (split; congruence).
  rewrite String.eqb_eq. split; congruence.
Qed.

Lemma same_text_refl (v : json) : same_text v v = true.
Proof. apply same_text_iff. reflexivity. Qed.

Lemma same_text_ext (u u' v : json) :
  char_value u = char_value u' -> same_text v u = same_text v u'.
Proof. unfold same_text. intros ->. reflexivity. Qed.

Lemma char_value_stored_text (v : json) :
  char_value (stored_text v) = char_value v.
Proof. unfold stored_text. destruct v; reflexivity. Qed.

Lemma same_text_stored_l (v w : json) :
  same_text (stored_text v) w = same_text v w.
Proof. unfold same_text. rewrite char_value_stored_text. reflexivity. Qed.

Lemma not_null_char_value (v : json) :
  not_null v = match char_value v with Some _ => true | None => false end.
Proof. destruct v; reflexivity. Qed.

Lemma not_null_ext (u v : json) :
  char_value u = char_value v -> not_null u = not_null v.
Proof. rewrite !not_null_char_value. intros ->. reflexivity. Qed.

Lemma ad_same_key_iff (s e : json) (a : Ad) :
  ad_same_key s e a = true
  <-> char_value (ad_source a) = char_value s /\
      char_value (ad_external_id a) = char_value e.
Proof.
  unfold ad_same_key. rewrite andb_true_iff, !same_text_iff. tauto.
Qed.

Lemma ad_same_key_ext (s e s' e' : json) (a : Ad) :
  char_value s = char_value s' -> char_value e = char_value e' ->
  ad_same_key s e a = ad_same_key s' e' a.
Proof.
  intros Hs He. unfold ad_same_key.
  rewrite (same_text_ext _ _ _ Hs), (same_text_ext _ _ _ He). reflexivity.
Qed.

Lemma filter_same_key_ext (s e s' e' : json) (l : list Ad) :
  char_value s = char_value s' -> char_value e = char_value e' ->
  filter (ad_same_key s e) l = filter (ad_same_key s' e') l.
Proof.
  intros Hs He. apply filter_ext. intros a. apply ad_same_key_ext; assumption.
Qed.

Lemma ad_same_key_own (a : Ad) :
  ad_same_key (ad_source a) (ad_external_id a) a = true.
Proof. unfold ad_same_key. rewrite !same_text_refl. reflexivity. Qed.

Lemma accepts_ext (s e s' e' : json) (dfl : AdDefaults) :
  char_value s = char_value s' -> char_value e = char_value e' ->
  accepts s e dfl = accepts s' e' dfl.
Proof.
  intros Hs He. unfold accepts.
  rewrite (not_null_ext _ _ Hs), (not_null_ext _ _ He). reflexivity.
Qed.

Lemma written_id (obj a : Ad) : ad_id (written obj a) = ad_id a.
Proof.
  unfold written. destruct (Nat.eqb (ad_id a) (ad_id obj)) eqn:E;
    [apply Nat.eqb_eq in E; congruence|reflexivity].
Qed.

Lemma wf_empty : wf empty_store.
Proof.
  split; simpl; intros; try constructor; lia.
Qed.

(** Under the primary key, an UPDATE of [obj] that keeps the value of a
    test on [obj] keeps it on every row. *)
Lemma written_keeps (P : Ad -> bool) (rows : list Ad) (obj obj' : Ad) :
  NoDup (map ad_id rows) -> In obj rows -> ad_id obj' = ad_id obj ->
  P obj' = P obj ->
  forall a, In a rows -> P (written obj' a) = P a.
Proof.
  intros Hnd Hin Hid HP a Ha. unfold written.
  destruct (Nat.eqb (ad_id a) (ad_id obj')) eqn:E; [|reflexivity].
  apply Nat.eqb_eq in E.
  assert (a = obj) by (eapply NoDup_map_inj; eauto; congruence).
  subst a. exact HP.
Qed.

Lemma filter_written (P : Ad -> bool) (rows : list Ad) (obj obj' : Ad) :
  NoDup (map ad_id rows) -> In obj rows -> ad_id obj' = ad_id obj ->
  P obj' = P obj ->
  filter P (map (written obj') rows) = map (written obj') (filter P rows).
Proof.
  intros. apply filter_ext_in_map. eapply written_keeps; eauto.
Qed.

(** ** The ORM calls *)

Lemma not_null_stored_text (v : json) :
  not_null (stored_text v) = not_null v.
Proof. destruct v; reflexivity. Qed.

Lemma ad_not_null_new_row id now s e dfl :
  ad_not_null (AdObjects.new_row id now s e dfl) = accepts s e dfl.
Proof.
  unfold ad_not_null, accepts. simpl. rewrite !not_null_stored_text.
  reflexivity.
Qed.

Lemma ad_not_null_set_defaults obj now dfl :
  ad_not_null (AdObjects.set_defaults obj now dfl)
  = accepts (ad_source obj) (ad_external_id obj) dfl.
Proof. reflexivity. Qed.

Lemma update_or_create_ok now s e dfl db a cr db' :
  AdObjects.update_or_create now s e dfl db = (Ok (a, cr), db') ->
  accepts s e dfl = true /\
  match filter (ad_same_key s e) (ad_rows db) with
  | [] =>
      cr = true /\ a = AdObjects.new_row (next_ad_id db) now s e dfl /\
      db' = mkStore (ad_rows db ++ [a]) (price_point_rows db)
                    (S (next_ad_id db))
  | [obj] =>
      cr = false /\ a = AdObjects.set_defaults obj now dfl /\
      db' = mkStore (map (written a) (ad_rows db)) (price_point_rows db)
                    (next_ad_id db)
  | _ :: _ :: _ => False
  end.
Proof.
  unfold AdObjects.update_or_create, bind, AdObjects.get.
  destruct (filter (ad_same_key s e) (ad_rows db)) as [|obj [|obj2 r]] eqn:F.
  - unfold AdObjects.create, ret. rewrite ad_not_null_new_row.
    destruct (accepts s e dfl); simpl; [|discriminate].
    destruct (existsb (ad_same_key s e) (ad_rows db)); [discriminate|].
    intros H. inversion H; subst. auto.
  - unfold AdObjects.save, ret. rewrite ad_not_null_set_defaults.
    apply filter_In_head in F. destruct F as [_ F].
    apply ad_same_key_iff in F. destruct F as [Fs Fe].
    rewrite (accepts_ext _ _ _ _ dfl Fs Fe).
    destruct (accepts s e dfl); simpl; [|discriminate].
    intros H. inversion H; subst. auto.
  - discriminate.
Qed.

Lemma update_or_create_raise now s e dfl db x db' :
  AdObjects.update_or_create now s e dfl db = (Raise x, db') -> db' = db.
Proof.
  unfold AdObjects.update_or_create, bind, AdObjects.get.
  destruct (filter (ad_same_key s e) (ad_rows db)) as [|obj [|obj2 r]].
  - unfold AdObjects.create, ret.
    destruct (negb _); [congruence|].
    destruct (existsb _ _); [congruence|discriminate].
  - unfold AdObjects.save, ret. destruct (negb _); [congruence|discriminate].
  - congruence.
Qed.

Lemma update_or_create_update now s e dfl db obj :
  filter (ad_same_key s e) (ad_rows db) = [obj] ->
  accepts s e dfl = true ->
  AdObjects.update_or_create now s e dfl db
  = (Ok (AdObjects.set_defaults obj now dfl, false),
     mkStore (map (written (AdObjects.set_defaults obj now dfl)) (ad_rows db))
             (price_point_rows db) (next_ad_id db)).
Proof.
  intros F Hacc.
  unfold AdObjects.update_or_create, bind, AdObjects.get. rewrite F.
  unfold AdObjects.save, ret. rewrite ad_not_null_set_defaults.
  apply filter_In_head in F. destruct F as [_ F].
  apply ad_same_key_iff in F. destruct F as [Fs Fe].
  rewrite (accepts_ext _ _ _ _ dfl Fs Fe).
  rewrite Hacc. reflexivity.
Qed.


Lemma get_or_create_ok ad price cur t db p cr db' :
  PricePointObjects.get_or_create ad price cur t db = (Ok (p, cr), db') ->
  match filter (PricePointObjects.same_row ad price cur t)
               (price_point_rows db) with
  | [] =>
      cr = true /\ p = mkPricePoint ad price cur t /\
      existsb (pp_same_key ad t price) (price_point_rows db) = false /\
      db' = mkStore (ad_rows db) (price_point_rows db ++ [p]) (next_ad_id db)
  | [q] => cr = false /\ p = q /\ db' = db
  | _ :: _ :: _ => False
  end.
Proof.
  unfold PricePointObjects.get_or_create, bind, PricePointObjects.get.
  destruct (filter _ (price_point_rows db)) as [|q [|q2 r]].
  - unfold PricePointObjects.create, ret.
    destruct (negb _); [discriminate|].
    destruct (existsb _ _); [discriminate|].
    intros H. inversion H; subst. auto.
  - unfold ret. intros H. inversion H; subst. auto.
  - discriminate.
Qed.

Lemma get_or_create_raise ad price cur t db x db' :
  PricePointObjects.get_or_create ad price cur t db = (Raise x, db') ->
  db' = db.
Proof.
  unfold PricePointObjects.get_or_create, bind, PricePointObjects.get.
  destruct (filter _ (price_point_rows db)) as [|q [|q2 r]].
  - unfold PricePointObjects.create, ret.
    destruct (negb _); [congruence|].
    destruct (existsb _ _); [congruence|discriminate].
  - discriminate.
  - congruence.
Qed.

Lemma get_or_create_found ad price cur t db q :
  filter (PricePointObjects.same_row ad price cur t) (price_point_rows db)
  = [q] ->
  PricePointObjects.get_or_create ad price cur t db = (Ok (q, false), db).
Proof.
  intros F.
  unfold PricePointObjects.get_or_create, bind, PricePointObjects.get.
  rewrite F. reflexivity.
Qed.

(** ** The schema is kept by every write *)

Lemma update_or_create_wf now s e dfl db a cr db' :
  wf db ->
  AdObjects.update_or_create now s e dfl db = (Ok (a, cr), db') ->
  wf db'.
Proof.
  intros [Hids Hfresh Hkey Hpp] H.
  apply update_or_create_ok in H. destruct H as [_ H].
  destruct (filter (ad_same_key s e) (ad_rows db)) as [|obj [|obj2 r]] eqn:F;
    [| |contradiction].
  - destruct H as (-> & -> & ->). split; simpl.
    + rewrite map_app. simpl.
      apply NoDup_app; [exact Hids|repeat constructor; simpl; tauto|].
      intros x Hx [Hx'|[]]. subst x.
      apply in_map_iff in Hx. destruct Hx as (b & Hb & Hin).
      rewrite Forall_forall in Hfresh. specialize (Hfresh b Hin). lia.
    + apply Forall_app. split.
      * eapply Forall_impl; [|exact Hfresh]. simpl. intros; lia.
      * repeat constructor.
    + intros s' e'. rewrite filter_app, length_app. simpl.
      destruct (ad_same_key s' e' _) eqn:K; simpl.
      * apply ad_same_key_iff in K. simpl in K.
        rewrite !char_value_stored_text in K. destruct K as [Ks Ke].
        rewrite <- (filter_same_key_ext _ _ _ _ _ Ks Ke), F. simpl. lia.
      * specialize (Hkey s' e'). lia.
    + exact Hpp.
  - destruct H as (-> & Ha & ->).
    assert (Hobj : In obj (ad_rows db) /\ ad_same_key s e obj = true)
      by (eapply filter_In_head; eauto).
    destruct Hobj as [Hin _].
    assert (Hid : ad_id a = ad_id obj) by (subst a; reflexivity).
    split; simpl.
    + rewrite map_map.
      rewrite (map_ext _ ad_id) by (intros; apply written_id). exact Hids.
    + apply Forall_map. eapply Forall_impl; [|exact Hfresh].
      simpl. intros b Hb. rewrite written_id. exact Hb.
    + intros s' e'.
      rewrite (filter_written _ _ obj a Hids Hin Hid)
        by (subst a; reflexivity).
      rewrite length_map. apply Hkey.
    + exact Hpp.
Qed.

Lemma get_or_create_wf ad price cur t db p cr db' :
  wf db ->
  PricePointObjects.get_or_create ad price cur t db = (Ok (p, cr), db') ->
  wf db'.
Proof.
  intros [Hids Hfresh Hkey Hpp] H.
  apply get_or_create_ok in H.
  destruct (filter _ (price_point_rows db)) as [|q [|q2 r]];
    [| |contradiction].
  - destruct H as (-> & -> & Hex & ->). split; simpl; auto.
    intros ad' t' p'. rewrite filter_app, length_app. simpl.
    destruct (pp_same_key ad' t' p' _) eqn:K; simpl.
    + unfold pp_same_key in K. simpl in K.
      rewrite !andb_true_iff, Nat.eqb_eq, !json_eqb_eq in K.
      destruct K as [[<- <-] <-].
      apply filter_nil_existsb in Hex. rewrite Hex. simpl. lia.
    + specialize (Hpp ad' t' p'). lia.
  - destruct H as (-> & -> & ->). split; assumption.
Qed.

(** ** One turn of the loop *)

Lemma process_item_ok now src tgt t item c db c' db' :
  process_item now src tgt t item c db = (Ok c', db') ->
  exists d, item = JObj d /\
  ((has_identity item = false /\ c' = c /\ db' = db) \/
   (has_identity item = true /\
    exists a cr db1,
      AdObjects.update_or_create now src (dict_get d "external_id" JNull)
        (item_defaults d tgt) db = (Ok (a, cr), db1) /\
      created c' = created c + int cr /\
      updated c' = updated c + int (negb cr) /\
      ((has_price item = false /\ db' = db1 /\
        price_points c' = price_points c) \/
       (has_price item = true /\
        price_points c' = price_points c + 1 /\
        exists p pcr,
          PricePointObjects.get_or_create (ad_id a)
            (dict_get d "price" JNull) (dict_get d "currency" (JStr "RUB"))
            t db1 = (Ok (p, pcr), db'))))).
Proof.
  destruct item as [| | | | |d]; try discriminate.
  intros H. exists d. split; [reflexivity|]. simpl in *.
  destruct (truthy (dict_get d "external_id" JNull)) eqn:T; simpl in H.
  - right. split; [reflexivity|].
    unfold bind in H.
    destruct (AdObjects.update_or_create _ _ _ _ db) as [[[a cr]|x] db1] eqn:U;
      [|discriminate].
    exists a, cr, db1. split; [reflexivity|].
    destruct (not_null (dict_get d "price" JNull)) eqn:P.
    + destruct (PricePointObjects.get_or_create _ _ _ _ db1)
        as [[[p pcr]|x] db2] eqn:G; [|discriminate].
      unfold ret in H. inversion H; subst; simpl.
      repeat split; try reflexivity. right. eauto 6.
    + unfold ret in H. inversion H; subst; simpl.
      repeat split; try reflexivity. left. auto.
  - left. unfold ret in H. inversion H. auto.
Qed.

Lemma process_item_wf now src tgt t item c db c' db' :
  wf db ->
  process_item now src tgt t item c db = (Ok c', db') ->
  wf db'.
Proof.
  intros Hwf H. apply process_item_ok in H.
  destruct H as (d & -> & [(_ & _ & ->)|(_ & a & cr & db1 & U & _ & _ & H)]);
    [exact Hwf|].
  apply update_or_create_wf in U; [|exact Hwf].
  destruct H as [(_ & -> & _)|(_ & _ & p & pcr & G)]; [exact U|].
  eapply get_or_create_wf; eauto.
Qed.

Lemma for_each_process_wf now src tgt t items : forall c db c' db',
  wf db ->
  for_each (process_item now src tgt t) items c db = (Ok c', db') ->
  wf db'.
Proof.
  induction items as [|item items IH]; simpl; intros c db c' db' Hwf H.
  - unfold ret in H. inversion H; subst. exact Hwf.
  - unfold bind in H.
    destruct (process_item now src tgt t item c db) as [[c1|x] db1] eqn:S;
      [|discriminate].
    eapply IH; [|exact H]. eapply process_item_wf; eauto.
Qed.

(** ** The view, past the signature check and the parser *)

Lemma ingest_payload_obj now d db :
  ingest_payload now (JObj d) db
  = match batch_writes now d db with
    | (Ok c, db') => (Ok (accepted c), db')
    | (Raise e, _) => (Raise e, db)
    end.
Proof.
  unfold ingest_payload, batch_writes, bind, lift, transaction_atomic, ret.
  simpl. unfold batch_fetched_at, batch_items, batch_source, batch_target_id.
  destruct (process_items _ _ _ _ _ _ db) as [[c|e] db']; reflexivity.
Qed.

Lemma ingest_payload_not_obj now v db :
  (forall d, v <> JObj d) ->
  ingest_payload now v db = (Raise AttributeError, db).
Proof.
  intros H. destruct v; try reflexivity. exfalso. eapply H. reflexivity.
Qed.

Section ViewFacts.

Variable hexdigest : string -> string -> string.
Variable decode_utf8 : string -> option string.
Variable json_loads : string -> option json.

Lemma ingest_avito_parsed settings request now payload db :
  authenticate hexdigest settings request = Ok true ->
  parse decode_utf8 json_loads request = Ok (Some payload) ->
  ingest_avito hexdigest decode_utf8 json_loads settings request now db
  = ingest_payload now payload db.
Proof.
  intros Ha Hp. unfold ingest_avito, bind, lift.
  rewrite Ha. simpl. rewrite Hp. reflexivity.
Qed.

Lemma ingest_avito_committed settings request now d db resp db' :
  authenticate hexdigest settings request = Ok true ->
  parse decode_utf8 json_loads request = Ok (Some (JObj d)) ->
  ingest_avito hexdigest decode_utf8 json_loads settings request now db
  = (Ok resp, db') ->
  exists c, batch_writes now d db = (Ok c, db') /\ resp = accepted c.
Proof.
  intros Ha Hp H.
  rewrite (ingest_avito_parsed _ _ _ _ _ Ha Hp), ingest_payload_obj in H.
  destruct (batch_writes now d db) as [[c|e] db1]; [|discriminate].
  inversion H; subst. eauto.
Qed.

End ViewFacts.

Lemma batch_writes_ok now d db c db' :
  batch_writes now d db = (Ok c, db') ->
  exists items,
    Py.iter (batch_items d) = Ok items /\
    for_each (process_item now (batch_source d) (batch_target_id d)
                (batch_fetched_at now d)) items (mkCounters 0 0 0) db
    = (Ok c, db').
Proof.
  unfold batch_writes, process_items, bind, lift.
  destruct (Py.iter (batch_items d)) as [items|e]; [|discriminate].
  intros H. exists items. auto.
Qed.

(** ** Counting *)

Lemma for_each_app {A S : Type} (f : A -> S -> M S) (l1 l2 : list A) :
  forall s db,
    for_each f (l1 ++ l2) s db = bind (for_each f l1 s) (for_each f l2) db.
Proof.
  induction l1 as [|x l1 IH]; intros s db; simpl.
  - reflexivity.
  - unfold bind. destruct (f x s db) as [[s1|e] db1]; [|reflexivity].
    rewrite IH. reflexivity.
Qed.

Lemma process_item_skip now src tgt t d c db :
  truthy (dict_get d "external_id" JNull) = false ->
  process_item now src tgt t (JObj d) c db = (Ok c, db).
Proof. intros H. simpl. rewrite H. reflexivity. Qed.

Lemma for_each_counts now src tgt t items : forall c db c' db',
  for_each (process_item now src tgt t) items c db = (Ok c', db') ->
  created c' + updated c'
  = created c + updated c + List.length (filter has_identity items) /\
  price_points c' = price_points c + List.length (filter priced items).
Proof.
  induction items as [|item items IH]; simpl; intros c db c' db' H.
  - unfold ret in H. inversion H; subst. lia.
  - unfold bind in H.
    destruct (process_item now src tgt t item c db) as [[c1|x] db1] eqn:S;
      [|discriminate].
    apply IH in H. apply process_item_ok in S. unfold priced in *.
    destruct S as (d & -> & [(Hid & -> & ->)|(Hid & a & cr & db2 & S)]);
      rewrite Hid.
    + simpl. exact H.
    + destruct S as (_ & Hc & Hu & S).
      destruct S as [(Hp & _ & Hpp)|(Hp & Hpp & _)]; rewrite Hp; simpl;
        destruct cr; simpl in *; lia.
Qed.

(** ** Atomicity *)

(** C3. A correctly signed batch whose body parses to an object either
    commits, and then the store is the one that all the upserts and
    inserts of the batch lead to and the response carries the counters;
    or a failure while processing an item leaves the store as it was
    before the request and no response, so no counters, is returned.  An
    item without identity is no failure: its turn of the loop ends well
    and changes neither counters nor store. *)
Theorem batch_is_atomic
    (hexdigest : string -> string -> string)
    (decode_utf8 : string -> option string)
    (json_loads : string -> option json)
    (settings : Settings) (request : Request) (now : string)
    (d : list (string * json)) (db : Store) :
  authenticate hexdigest settings request = Ok true ->
  parse decode_utf8 json_loads request = Ok (Some (JObj d)) ->
  ((exists c db',
       batch_writes now d db = (Ok c, db') /\
       ingest_avito hexdigest decode_utf8 json_loads settings request now db
       = (Ok (accepted c), db'))
   \/
   (exists e dirty,
       batch_writes now d db = (Raise e, dirty) /\
       ingest_avito hexdigest decode_utf8 json_loads settings request now db
       = (Raise e, db)))
  /\
  (forall item c s,
      truthy (dict_get item "external_id" JNull) = false ->
      process_item now (batch_source d) (batch_target_id d)
        (batch_fetched_at now d) (JObj item) c s = (Ok c, s)).
Proof.
  intros Ha Hp. split.
  - rewrite (ingest_avito_parsed _ _ _ _ _ _ _ _ Ha Hp), ingest_payload_obj.
    destruct (batch_writes now d db) as [[c|e] db1].
    + left. eauto.
    + right. eauto.
  - intros item c s H. apply process_item_skip. exact H.
Qed.

Lemma batch_is_atomic_witness :
  authenticate toy_hexdigest toy_settings (signed "two-currency-batch")
  = Ok true /\
  parse toy_decode (toy_loads toy_table) (signed "two-currency-batch")
  = Ok (Some (JObj two_currency_batch)) /\
  ((exists c db',
       batch_writes "t1" two_currency_batch empty_store = (Ok c, db') /\
       ingest_avito toy_hexdigest toy_decode (toy_loads toy_table)
         toy_settings (signed "two-currency-batch") "t1" empty_store
       = (Ok (accepted c), db'))
   \/
   (exists e dirty,
       batch_writes "t1" two_currency_batch empty_store = (Raise e, dirty) /\
       ingest_avito toy_hexdigest toy_decode (toy_loads toy_table)
         toy_settings (signed "two-currency-batch") "t1" empty_store
       = (Raise e, empty_store))).
Proof.
  split; [reflexivity|]. split; [reflexivity|].
  apply (batch_is_atomic toy_hexdigest toy_decode (toy_loads toy_table)
           toy_settings (signed "two-currency-batch") "t1"
           two_currency_batch empty_store); reflexivity.
Defined.

(** The end-to-end example of the specification: the first post of the
    chair makes one [Ad] and one [PricePoint]; the second updates the
    [Ad] and leaves [PricePoint] alone. *)
Example chair_first_post :
  ingest_avito toy_hexdigest toy_decode (toy_loads toy_table) toy_settings
    (signed "chair-batch") "t1" empty_store
  = (Ok (accepted (mkCounters 1 0 1)),
     mkStore [chair_row]
       [mkPricePoint 1 (JNum 500) (JStr "RUB")
          (JStr "2024-01-01T00:00:00Z")] 2).
Proof. reflexivity. Qed.

Example chair_second_post :
  ingest_avito toy_hexdigest toy_decode (toy_loads toy_table) toy_settings
    (signed "chair-batch") "t2" chair_store
  = (Ok (accepted (mkCounters 0 1 1)),
     mkStore [AdObjects.set_defaults chair_row "t2"
                (item_defaults chair (JNum 7))]
       (price_point_rows chair_store) 2).
Proof. reflexivity. Qed.

(** The rollback has something to undo: when the second chair of
    [two_currency_batch] fails, the first has already been written. *)
Example rollback_discards_rows :
  exists dirty,
    batch_writes "t1" two_currency_batch empty_store
    = (Raise IntegrityError, dirty) /\
    List.length (ad_rows dirty) = 1 /\
    List.length (price_point_rows dirty) = 1 /\
    snd (ingest_payload "t1" (JObj two_currency_batch) empty_store)
    = empty_store.
Proof. eexists. repeat split. Qed.

(** ** Items without identity *)

(** C6. An item whose [external_id] is absent or empty is passed over:
    its turn of the loop ends well with the counters and the store it
    started from, so it makes no Ad and no PricePoint and counts for
    nothing; and a batch with such an item anywhere in it does what the
    batch without the item does. *)
Theorem item_without_identity_is_skipped
    (now : string) (source target_id fetched_at : json)
    (item : list (string * json)) :
  truthy (dict_get item "external_id" JNull) = false ->
  (forall c db,
      process_item now source target_id fetched_at (JObj item) c db
      = (Ok c, db)) /\
  (forall before after c db,
      process_items now source target_id fetched_at
        (JArr (before ++ JObj item :: after)) c db
      = process_items now source target_id fetched_at
          (JArr (before ++ after)) c db).
Proof.
  intros H. split.
  - intros c db. apply process_item_skip. exact H.
  - intros before after c db. unfold process_items, bind, lift. simpl.
    rewrite !for_each_app. unfold bind.
    destruct (for_each _ before c db) as [[c1|e] db1]; [|reflexivity].
    simpl. unfold bind. rewrite H. reflexivity.
Qed.

Lemma item_without_identity_is_skipped_witness :
  truthy (dict_get anonymous "external_id" JNull) = false /\
  process_items "t1" (JStr "avito") (JNum 7) (JStr "2024-01-01T00:00:00Z")
    (JArr ([JObj chair] ++ JObj anonymous :: [JObj chair_usd]))
    (mkCounters 0 0 0) empty_store
  = process_items "t1" (JStr "avito") (JNum 7) (JStr "2024-01-01T00:00:00Z")
      (JArr ([JObj chair] ++ [JObj chair_usd]))
      (mkCounters 0 0 0) empty_store.
Proof.
  split; [reflexivity|].
  apply (item_without_identity_is_skipped "t1" (JStr "avito") (JNum 7)
           (JStr "2024-01-01T00:00:00Z") anonymous).
  reflexivity.
Defined.

(** ** The counters of a committed batch *)

(** C7. In the response of every committed batch, [price_points] is the
    number of items that were processed and carry a price: one for each
    call of [get_or_create], whether or not the call added a row. *)
Theorem price_points_counts_attempts
    (hexdigest : string -> string -> string)
    (decode_utf8 : string -> option string)
    (json_loads : string -> option json)
    (settings : Settings) (request : Request) (now : string)
    (d : list (string * json)) (db : Store) (resp : Response) (db' : Store) :
  authenticate hexdigest settings request = Ok true ->
  parse decode_utf8 json_loads request = Ok (Some (JObj d)) ->
  ingest_avito hexdigest decode_utf8 json_loads settings request now db
  = (Ok resp, db') ->
  exists items c,
    Py.iter (batch_items d) = Ok items /\
    resp = accepted c /\
    price_points c = List.length (filter priced items).
Proof.
  intros Ha Hp H.
  destruct (ingest_avito_committed _ _ _ _ _ _ _ _ _ _ Ha Hp H)
    as (c & Hw & ->).
  apply batch_writes_ok in Hw. destruct Hw as (items & Hit & Hf).
  apply for_each_counts in Hf. exists items, c. simpl in Hf.
  repeat split; tauto.
Qed.

Lemma price_points_counts_attempts_witness :
  authenticate toy_hexdigest toy_settings (signed "chair-batch") = Ok true /\
  parse toy_decode (toy_loads toy_table) (signed "chair-batch")
  = Ok (Some (JObj chair_batch)) /\
  ingest_avito toy_hexdigest toy_decode (toy_loads toy_table) toy_settings
    (signed "chair-batch") "t2" chair_store
  = (Ok (accepted (mkCounters 0 1 1)),
     mkStore (map (fun a => AdObjects.set_defaults a "t2"
                              (item_defaults chair (JNum 7)))
                  (ad_rows chair_store))
             (price_point_rows chair_store) (next_ad_id chair_store)) /\
  exists items c,
    Py.iter (batch_items chair_batch) = Ok items /\
    accepted (mkCounters 0 1 1) = accepted c /\
    price_points c = List.length (filter priced items).
Proof.
  split; [reflexivity|]. split; [reflexivity|]. split; [reflexivity|].
  eapply (price_points_counts_attempts toy_hexdigest toy_decode
            (toy_loads toy_table) toy_settings (signed "chair-batch") "t2"
            chair_batch chair_store);
    [reflexivity|reflexivity|vm_compute; reflexivity].
Defined.

(** *** Which items create a row *)

Lemma existsb_map_keeps {A : Type} (P : A -> bool) (f : A -> A) (l : list A) :
  (forall a, In a l -> P (f a) = P a) ->
  existsb P (map f l) = existsb P l.
Proof.
  induction l as [|a l IH]; intros H; simpl; [reflexivity|].
  rewrite (H a (or_introl eq_refl)).
  rewrite IH by (intros b Hb; apply H; right; exact Hb). reflexivity.
Qed.

Lemma update_or_create_has_ad now s e dfl db a cr db' :
  wf db ->
  AdObjects.update_or_create now s e dfl db = (Ok (a, cr), db') ->
  cr = negb (has_ad db s e) /\
  forall e', has_ad db' s e' = has_ad db s e' || same_text e e'.
Proof.
  intros Hwf H. apply update_or_create_ok in H. destruct H as [_ H].
  unfold has_ad.
  destruct (filter (ad_same_key s e) (ad_rows db)) as [|obj [|obj2 r]] eqn:F;
    [| |contradiction].
  - destruct H as (-> & -> & ->). simpl. split.
    + apply filter_nil_existsb in F. rewrite F. reflexivity.
    + intros e'. rewrite existsb_app. simpl. rewrite orb_false_r.
      f_equal. unfold ad_same_key. simpl.
      rewrite !same_text_stored_l, same_text_refl. reflexivity.
  - destruct H as (-> & Ha & ->). simpl.
    assert (Hobj : In obj (ad_rows db) /\ ad_same_key s e obj = true)
      by (eapply filter_In_head; eauto).
    destruct Hobj as [Hin Hk]. split.
    + symmetry. apply negb_false_iff. apply existsb_exists. eauto.
    + intros e'.
      rewrite existsb_map_keeps.
      * destruct (same_text e e') eqn:E; [|rewrite orb_false_r; reflexivity].
        apply same_text_iff in E. rewrite orb_true_r.
        apply existsb_exists. exists obj. split; [exact Hin|].
        rewrite <- (ad_same_key_ext s e s e' obj eq_refl E). exact Hk.
      * eapply written_keeps; eauto using wf_ids; subst a; reflexivity.
Qed.

Lemma get_or_create_ad_rows ad price cur t db p cr db' :
  PricePointObjects.get_or_create ad price cur t db = (Ok (p, cr), db') ->
  ad_rows db' = ad_rows db.
Proof.
  intros H. apply get_or_create_ok in H.
  destruct (filter _ (price_point_rows db)) as [|q [|q2 r]];
    [| |contradiction].
  - destruct H as (_ & _ & _ & ->). reflexivity.
  - destruct H as (_ & _ & ->). reflexivity.
Qed.

Lemma process_item_created now src tgt t item c db c' db' :
  wf db ->
  process_item now src tgt t item c db = (Ok c', db') ->
  has_identity item = true ->
  created c' = created c + int (negb (has_ad db src (external_id_of item))) /\
  forall e',
    has_ad db' src e' = has_ad db src e' || same_text (external_id_of item) e'.
Proof.
  intros Hwf H Hid. apply process_item_ok in H.
  destruct H as (d & -> & [(Hid' & _)|(_ & a & cr & db1 & U & Hc & _ & H)]);
    [congruence|].
  simpl. destruct (update_or_create_has_ad _ _ _ _ _ _ _ _ Hwf U) as [-> Hhas].
  split; [exact Hc|].
  assert (ad_rows db' = ad_rows db1) as E.
  { destruct H as [(_ & -> & _)|(_ & _ & p & pcr & G)]; [reflexivity|].
    eapply get_or_create_ad_rows; eauto. }
  intros e'. rewrite <- Hhas. unfold has_ad. rewrite E. reflexivity.
Qed.

Lemma filter_without {A : Type} (P Q : A -> bool) (l : list A) :
  (forall x, In x l -> Q x = true) ->
  filter (fun x => P x && Q x) l = filter P l.
Proof.
  intros H. apply filter_ext_in. intros x Hx. rewrite (H x Hx).
  apply andb_true_r.
Qed.

Lemma count_one_out (P : json -> bool) (e : json) (l : list json) :
  NoDup l -> In e l ->
  List.length (filter P l)
  = int (P e)
    + List.length (filter (fun x => P x && negb (json_eqb e x)) l).
Proof.
  induction l as [|x l IH]; intros Hnd Hin; [contradiction|].
  inversion Hnd as [|y ys Hx Hnd']; subst. simpl.
  destruct Hin as [->|Hin].
  - rewrite json_eqb_refl, andb_false_r.
    rewrite filter_without.
    + destruct (P e); reflexivity.
    + intros y Hy. apply negb_true_iff, json_eqb_neq. congruence.
  - assert (json_eqb e x = false) as E by (apply json_eqb_neq; congruence).
    rewrite E, andb_true_r. specialize (IH Hnd' Hin).
    destruct (P x); simpl; lia.
Qed.

Lemma count_nodup_cons (P : json -> bool) (e : json) (l : list json) :
  List.length (filter P (nodup json_eq_dec (e :: l)))
  = int (P e)
    + List.length (filter (fun x => P x && negb (json_eqb e x))
                          (nodup json_eq_dec l)).
Proof.
  simpl. destruct (in_dec json_eq_dec e l) as [Hin|Hout].
  - apply count_one_out; [apply NoDup_nodup|apply nodup_In; exact Hin].
  - simpl. rewrite filter_without.
    + destruct (P e); reflexivity.
    + intros y Hy. apply nodup_In in Hy.
      apply negb_true_iff, json_eqb_neq. congruence.
Qed.

Lemma same_text_stored (e y : json) :
  same_text e (stored_text y) = json_eqb (stored_text e) (stored_text y).
Proof.
  unfold same_text. rewrite char_value_stored_text. unfold stored_text.
  destruct (char_value e) as [a|], (char_value y) as [b|];
    try reflexivity.
  destruct (String.eqb a b) eqn:E.
  - apply String.eqb_eq in E. subst b. symmetry. apply json_eqb_refl.
  - symmetry. apply json_eqb_neq. intros H. inversion H.
    subst b. rewrite String.eqb_refl in E. discriminate E.
Qed.

Lemma has_ad_ext (db : Store) (s e e' : json) :
  char_value e = char_value e' -> has_ad db s e = has_ad db s e'.
Proof.
  intros H. unfold has_ad. induction (ad_rows db) as [|a l IH]; simpl.
  - reflexivity.
  - rewrite (ad_same_key_ext s e s e' a eq_refl H), IH. reflexivity.
Qed.

Lemma for_each_created now src tgt t items : forall c db c' db',
  wf db ->
  for_each (process_item now src tgt t) items c db = (Ok c', db') ->
  created c' = created c + List.length (unseen db src items).
Proof.
  induction items as [|item items IH]; simpl; intros c db c' db' Hwf H.
  - unfold ret in H. inversion H; subst. simpl. lia.
  - unfold bind in H.
    destruct (process_item now src tgt t item c db) as [[c1|x] db1] eqn:S;
      [|discriminate].
    pose proof (process_item_wf _ _ _ _ _ _ _ _ _ Hwf S) as Hwf1.
    apply (IH _ _ _ _ Hwf1) in H. rewrite H. clear H.
    unfold unseen, identities. simpl.
    destruct (has_identity item) eqn:Hid.
    + destruct (process_item_created _ _ _ _ _ _ _ _ _ Hwf S Hid) as [Hc Hhas].
      cbn [map]. rewrite count_nodup_cons, Hc.
      rewrite (filter_ext_in (fun e0 => negb (has_ad db1 src e0))
                 (fun x => negb (has_ad db src x)
                           && negb (json_eqb
                                      (stored_text (external_id_of item))
                                      x))).
      * rewrite (has_ad_ext db src (stored_text (external_id_of item))
                   (external_id_of item))
          by apply char_value_stored_text.
        lia.
      * intros e' He'. apply nodup_In, in_map_iff in He'.
        destruct He' as (y & <- & _).
        rewrite Hhas, same_text_stored. apply negb_orb.
    + apply process_item_ok in S.
      destruct S as (d & -> & [(_ & -> & ->)|(Hid' & _)]); [|congruence].
      reflexivity.
Qed.

(** C10. In the response of every committed batch, [created + updated]
    is the number of items with a non-empty [external_id], each
    occurrence counted, and [created] is the number of distinct pairs
    (source, external_id) of the batch that had no row in [Ad] before
    it. *)
Theorem counters_are_conserved
    (hexdigest : string -> string -> string)
    (decode_utf8 : string -> option string)
    (json_loads : string -> option json)
    (settings : Settings) (request : Request) (now : string)
    (d : list (string * json)) (db : Store) (resp : Response) (db' : Store) :
  wf db ->
  authenticate hexdigest settings request = Ok true ->
  parse decode_utf8 json_loads request = Ok (Some (JObj d)) ->
  ingest_avito hexdigest decode_utf8 json_loads settings request now db
  = (Ok resp, db') ->
  exists items c,
    Py.iter (batch_items d) = Ok items /\
    resp = accepted c /\
    created c + updated c = List.length (filter has_identity items) /\
    created c = List.length (unseen db (batch_source d) items).
Proof.
  intros Hwf Ha Hp H.
  destruct (ingest_avito_committed _ _ _ _ _ _ _ _ _ _ Ha Hp H)
    as (c & Hw & ->).
  apply batch_writes_ok in Hw. destruct Hw as (items & Hit & Hf).
  exists items, c. split; [exact Hit|]. split; [reflexivity|].
  split.
  - apply for_each_counts in Hf. simpl in Hf. tauto.
  - apply for_each_created in Hf; [|exact Hwf]. simpl in Hf. exact Hf.
Qed.

Lemma counters_are_conserved_witness :
  wf empty_store /\
  authenticate toy_hexdigest toy_settings (signed "mixed-batch") = Ok true /\
  parse toy_decode (toy_loads mixed_table) (signed "mixed-batch")
  = Ok (Some (JObj mixed_batch)) /\
  unseen empty_store (batch_source mixed_batch)
    [JObj chair; JObj chair_number] = [JStr "123"] /\
  exists items c,
    Py.iter (batch_items mixed_batch) = Ok items /\
    accepted (mkCounters 1 1 1) = accepted c /\
    created c + updated c = List.length (filter has_identity items) /\
    created c = List.length (unseen empty_store (batch_source mixed_batch)
                               items).
Proof.
  assert (wf empty_store) as Hwf
    by (split; simpl; intros; try constructor; lia).
  split; [exact Hwf|]. split; [reflexivity|]. split; [reflexivity|].
  split; [vm_compute; reflexivity|].
  eapply (counters_are_conserved toy_hexdigest toy_decode
            (toy_loads mixed_table) toy_settings (signed "mixed-batch") "t1"
            mixed_batch empty_store);
    [exact Hwf|reflexivity|reflexivity|vm_compute; reflexivity].
Defined.

(** ** Re-ingestion *)

Lemma same_row_iff ad price cur t p :
  PricePointObjects.same_row ad price cur t p = true
  <-> p = mkPricePoint ad price cur t.
Proof.
  unfold PricePointObjects.same_row. destruct p as [a b c d]. simpl.
  rewrite !andb_true_iff, Nat.eqb_eq, !json_eqb_eq.
  split; [intros [[[-> ->] ->] ->]; reflexivity|].
  intros H. inversion H. auto.
Qed.

Lemma update_or_create_keeps_found now s e dfl db a cr db' :
  wf db ->
  AdObjects.update_or_create now s e dfl db = (Ok (a, cr), db') ->
  forall s' e' obj,
    filter (ad_same_key s' e') (ad_rows db) = [obj] ->
    exists obj',
      filter (ad_same_key s' e') (ad_rows db') = [obj'] /\
      ad_id obj' = ad_id obj.
Proof.
  intros Hwf H s' e' obj' F'. apply update_or_create_ok in H.
  destruct H as [_ H].
  destruct (filter (ad_same_key s e) (ad_rows db)) as [|obj [|obj2 r]] eqn:F;
    [| |contradiction].
  - destruct H as (-> & -> & ->). simpl. exists obj'.
    split; [|reflexivity].
    rewrite filter_app, F'. simpl.
    destruct (ad_same_key s' e' _) eqn:K; [|reflexivity].
    apply ad_same_key_iff in K. simpl in K.
    rewrite !char_value_stored_text in K. destruct K as [Ks Ke].
    rewrite <- (filter_same_key_ext _ _ _ _ _ Ks Ke), F in F'.
    discriminate.
  - destruct H as (-> & Ha & ->). simpl.
    assert (Hobj : In obj (ad_rows db) /\ ad_same_key s e obj = true)
      by (eapply filter_In_head; eauto).
    destruct Hobj as [Hin _].
    rewrite (filter_written _ _ obj a (wf_ids _ Hwf) Hin)
      by (subst a; reflexivity).
    rewrite F'. simpl. eexists. split; [reflexivity|apply written_id].
Qed.

Lemma update_or_create_finds_own now s e dfl db a cr db' :
  wf db ->
  AdObjects.update_or_create now s e dfl db = (Ok (a, cr), db') ->
  filter (ad_same_key s e) (ad_rows db') = [a] /\
  price_point_rows db' = price_point_rows db.
Proof.
  intros Hwf H. apply update_or_create_ok in H. destruct H as [_ H].
  destruct (filter (ad_same_key s e) (ad_rows db)) as [|obj [|obj2 r]] eqn:F;
    [| |contradiction].
  - destruct H as (-> & -> & ->). simpl. split; [|reflexivity].
    rewrite filter_app, F. simpl. unfold ad_same_key. simpl.
    rewrite !same_text_stored_l, !same_text_refl. reflexivity.
  - destruct H as (-> & Ha & ->). simpl. split; [|reflexivity].
    assert (Hobj : In obj (ad_rows db) /\ ad_same_key s e obj = true)
      by (eapply filter_In_head; eauto).
    destruct Hobj as [Hin _].
    rewrite (filter_written _ _ obj a (wf_ids _ Hwf) Hin)
      by (subst a; reflexivity).
    rewrite F. simpl. unfold written.
    replace (ad_id obj) with (ad_id a) by (subst a; reflexivity).
    rewrite Nat.eqb_refl. reflexivity.
Qed.

Lemma get_or_create_keeps_found ad price cur t db p cr db' :
  PricePointObjects.get_or_create ad price cur t db = (Ok (p, cr), db') ->
  forall ad' price' cur' t' q,
    filter (PricePointObjects.same_row ad' price' cur' t')
           (price_point_rows db) = [q] ->
    filter (PricePointObjects.same_row ad' price' cur' t')
           (price_point_rows db') = [q].
Proof.
  intros H ad' price' cur' t' q F'. apply get_or_create_ok in H.
  destruct (filter (PricePointObjects.same_row ad price cur t)
                   (price_point_rows db)) as [|q1 [|q2 r]] eqn:F;
    [| |contradiction].
  - destruct H as (-> & -> & _ & ->). simpl.
    rewrite filter_app, F'. simpl.
    destruct (PricePointObjects.same_row ad' price' cur' t' _) eqn:K;
      [|reflexivity].
    apply same_row_iff in K. inversion K; subst.
    rewrite F in F'. discriminate.
  - destruct H as (_ & _ & ->). exact F'.
Qed.

Lemma get_or_create_finds_own ad price cur t db p cr db' :
  PricePointObjects.get_or_create ad price cur t db = (Ok (p, cr), db') ->
  filter (PricePointObjects.same_row ad price cur t) (price_point_rows db')
  = [p].
Proof.
  intros H. apply get_or_create_ok in H.
  destruct (filter (PricePointObjects.same_row ad price cur t)
                   (price_point_rows db)) as [|q1 [|q2 r]] eqn:F;
    [| |contradiction].
  - destruct H as (-> & -> & _ & ->). simpl.
    rewrite filter_app, F. simpl.
    rewrite (proj2 (same_row_iff ad price cur t _) eq_refl). reflexivity.
  - destruct H as (_ & -> & ->). exact F.
Qed.

(** What a turn of the loop that ends well keeps of the two tables. *)
Lemma process_item_keeps_found now src tgt t item c db c' db' :
  wf db ->
  process_item now src tgt t item c db = (Ok c', db') ->
  (forall s' e' obj,
      filter (ad_same_key s' e') (ad_rows db) = [obj] ->
      exists obj',
        filter (ad_same_key s' e') (ad_rows db') = [obj'] /\
        ad_id obj' = ad_id obj) /\
  (forall ad' price' cur' t' q,
      filter (PricePointObjects.same_row ad' price' cur' t')
             (price_point_rows db) = [q] ->
      filter (PricePointObjects.same_row ad' price' cur' t')
             (price_point_rows db') = [q]).
Proof.
  intros Hwf H. apply process_item_ok in H.
  destruct H as (d & -> & [(_ & _ & ->)|(_ & a & cr & db1 & U & _ & _ & H)]).
  - split; intros; eauto.
  - pose proof (update_or_create_keeps_found _ _ _ _ _ _ _ _ Hwf U) as K1.
    destruct (update_or_create_finds_own _ _ _ _ _ _ _ _ Hwf U) as [_ K2].
    destruct H as [(_ & -> & _)|(_ & _ & p & pcr & G)].
    + split; [exact K1|]. intros. rewrite K2. assumption.
    + split.
      * intros s' e' obj F.
        rewrite (get_or_create_ad_rows _ _ _ _ _ _ _ _ G). eauto.
      * intros ad' price' cur' t' q F.
        eapply get_or_create_keeps_found; eauto. rewrite K2. exact F.
Qed.

Lemma settled_kept src tgt t db db' item :
  (forall s' e' obj,
      filter (ad_same_key s' e') (ad_rows db) = [obj] ->
      exists obj',
        filter (ad_same_key s' e') (ad_rows db') = [obj'] /\
        ad_id obj' = ad_id obj) ->
  (forall ad' price' cur' t' q,
      filter (PricePointObjects.same_row ad' price' cur' t')
             (price_point_rows db) = [q] ->
      filter (PricePointObjects.same_row ad' price' cur' t')
             (price_point_rows db') = [q]) ->
  settled src tgt t db item -> settled src tgt t db' item.
Proof.
  intros K1 K2. destruct item as [| | | | |d]; simpl; auto.
  intros H T. destruct (H T) as (Hacc & obj & F & Hp).
  split; [exact Hacc|].
  destruct (K1 _ _ _ F) as (obj' & F' & Hid).
  exists obj'. split; [exact F'|].
  intros P. destruct (Hp P) as (p & Fp). exists p.
  rewrite Hid. eauto.
Qed.

Lemma process_item_settles now src tgt t item c db c' db' :
  wf db ->
  process_item now src tgt t item c db = (Ok c', db') ->
  settled src tgt t db' item.
Proof.
  intros Hwf H. apply process_item_ok in H.
  destruct H as (d & -> & [(Hid & _ & ->)|(_ & a & cr & db1 & U & _ & _ & H)]);
    simpl in *.
  - intros T. congruence.
  - intros _.
    destruct (update_or_create_ok _ _ _ _ _ _ _ _ U) as [Hacc _].
    destruct (update_or_create_finds_own _ _ _ _ _ _ _ _ Hwf U) as [F _].
    split; [exact Hacc|]. exists a.
    destruct H as [(Hp & -> & _)|(_ & _ & p & pcr & G)].
    + split; [exact F|]. intros P. congruence.
    + split.
      * rewrite (get_or_create_ad_rows _ _ _ _ _ _ _ _ G). exact F.
      * intros _. exists p. eapply get_or_create_finds_own; eauto.
Qed.

Lemma for_each_keeps_settled now src tgt t items : forall c db c' db' item,
  wf db ->
  for_each (process_item now src tgt t) items c db = (Ok c', db') ->
  settled src tgt t db item -> settled src tgt t db' item.
Proof.
  induction items as [|it items IH]; simpl; intros c db c' db' item Hwf H Hs.
  - unfold ret in H. inversion H; subst. exact Hs.
  - unfold bind in H.
    destruct (process_item now src tgt t it c db) as [[c1|x] db1] eqn:S;
      [|discriminate].
    eapply IH; [|exact H|].
    + eapply process_item_wf; eauto.
    + destruct (process_item_keeps_found _ _ _ _ _ _ _ _ _ Hwf S) as [K1 K2].
      eapply settled_kept; eauto.
Qed.

(** After a run that ends well, every item of the list is settled. *)
Lemma for_each_settles now src tgt t items : forall c db c' db',
  wf db ->
  for_each (process_item now src tgt t) items c db = (Ok c', db') ->
  Forall (settled src tgt t db') items.
Proof.
  induction items as [|it items IH]; simpl; intros c db c' db' Hwf H.
  - constructor.
  - unfold bind in H.
    destruct (process_item now src tgt t it c db) as [[c1|x] db1] eqn:S;
      [|discriminate].
    pose proof (process_item_wf _ _ _ _ _ _ _ _ _ Hwf S) as Hwf1.
    constructor.
    + eapply for_each_keeps_settled; [exact Hwf1|exact H|].
      exact (process_item_settles _ _ _ _ _ _ _ _ _ Hwf S).
    + eapply IH; eauto.
Qed.

(** A settled item is updated and found, whatever the clock shows. *)
Lemma process_item_settled now src tgt t item c db :
  settled src tgt t db item ->
  exists c' db',
    process_item now src tgt t item c db = (Ok c', db') /\
    created c' = created c /\
    updated c' = updated c + int (has_identity item) /\
    price_points c' = price_points c + int (priced item) /\
    price_point_rows db' = price_point_rows db.
Proof.
  destruct item as [| | | | |d]; simpl; try contradiction.
  intros H. unfold priced. simpl.
  destruct (truthy (dict_get d "external_id" JNull)) eqn:T; simpl.
  - destruct (H eq_refl) as (Hacc & obj & F & Hp).
    unfold bind. rewrite (update_or_create_update _ _ _ _ _ _ F Hacc).
    destruct (not_null (dict_get d "price" JNull)) eqn:P.
    + destruct (Hp eq_refl) as (p & Fp).
      rewrite (get_or_create_found _ _ _ _ _ p) by exact Fp.
      unfold ret. simpl. do 2 eexists. split; [reflexivity|].
      simpl. repeat split; lia.
    + unfold ret. do 2 eexists. split; [reflexivity|].
      simpl. repeat split; lia.
  - unfold ret. do 2 eexists. split; [reflexivity|]. repeat split; lia.
Qed.

Lemma for_each_settled now src tgt t items : forall c db,
  wf db ->
  Forall (settled src tgt t db) items ->
  exists c' db',
    for_each (process_item now src tgt t) items c db = (Ok c', db') /\
    created c' = created c /\
    updated c' = updated c + List.length (filter has_identity items) /\
    price_points c' = price_points c + List.length (filter priced items) /\
    price_point_rows db' = price_point_rows db.
Proof.
  induction items as [|it items IH]; simpl; intros c db Hwf Hall.
  - unfold ret. do 2 eexists. split; [reflexivity|]. repeat split; lia.
  - inversion Hall as [|x xs Hit Hrest]; subst.
    destruct (process_item_settled now src tgt t it c db Hit)
      as (c1 & db1 & S & Hc & Hu & Hp & Hrows).
    pose proof (process_item_wf _ _ _ _ _ _ _ _ _ Hwf S) as Hwf1.
    destruct (process_item_keeps_found _ _ _ _ _ _ _ _ _ Hwf S) as [K1 K2].
    destruct (IH c1 db1 Hwf1) as (c' & db' & R & Hc' & Hu' & Hp' & Hrows').
    { eapply Forall_impl; [|exact Hrest].
      intros a Ha. eapply settled_kept; eauto. }
    exists c', db'. unfold bind. rewrite S. split; [exact R|].
    destruct (has_identity it), (priced it); simpl in *;
      repeat split; try lia; congruence.
Qed.

Lemma filter_all {A : Type} (P : A -> bool) (l : list A) :
  Forall (fun x => P x = true) l -> filter P l = l.
Proof.
  induction 1 as [|x l Hx _ IH]; simpl; [reflexivity|].
  rewrite Hx, IH. reflexivity.
Qed.

Lemma batch_fetched_at_explicit now1 now2 d :
  truthy (dict_get d "fetched_at" JNull) = true ->
  batch_fetched_at now1 d = batch_fetched_at now2 d.
Proof. intros H. unfold batch_fetched_at. rewrite H. reflexivity. Qed.

(** C1, as the code has it.  Take a batch whose items all carry a
    non-empty [external_id] and whose [fetched_at] is explicit.  If a
    first ingestion commits, with [created = N] and [updated = U], then
    ingesting the same request again commits with [created = 0] and
    [updated] the number of items, which is [N + U]; [price_points] is
    what it was the first time, and [PricePoint] has the rows it had
    after the first call. *)
Theorem reingestion_updates_and_adds_no_price_point
    (hexdigest : string -> string -> string)
    (decode_utf8 : string -> option string)
    (json_loads : string -> option json)
    (settings : Settings) (request : Request) (now1 now2 : string)
    (d : list (string * json)) (items : list json)
    (db : Store) (resp1 : Response) (db1 : Store) :
  wf db ->
  authenticate hexdigest settings request = Ok true ->
  parse decode_utf8 json_loads request = Ok (Some (JObj d)) ->
  Py.iter (batch_items d) = Ok items ->
  Forall (fun item => has_identity item = true) items ->
  truthy (dict_get d "fetched_at" JNull) = true ->
  ingest_avito hexdigest decode_utf8 json_loads settings request now1 db
  = (Ok resp1, db1) ->
  exists c1 c2 db2,
    resp1 = accepted c1 /\
    ingest_avito hexdigest decode_utf8 json_loads settings request now2 db1
    = (Ok (accepted c2), db2) /\
    created c2 = 0 /\
    updated c2 = List.length items /\
    updated c2 = created c1 + updated c1 /\
    price_points c2 = price_points c1 /\
    price_point_rows db2 = price_point_rows db1.
Proof.
  intros Hwf Ha Hp Hit Hall Hf H.
  destruct (ingest_avito_committed _ _ _ _ _ _ _ _ _ _ Ha Hp H)
    as (c1 & Hw & ->).
  apply batch_writes_ok in Hw. destruct Hw as (items' & Hit' & Hrun).
  rewrite Hit in Hit'. inversion Hit'; subst items'. clear Hit'.
  pose proof (for_each_process_wf _ _ _ _ _ _ _ _ _ Hwf Hrun) as Hwf1.
  pose proof (for_each_settles _ _ _ _ _ _ _ _ _ Hwf Hrun) as Hset.
  pose proof (for_each_counts _ _ _ _ _ _ _ _ _ Hrun) as [Hcu Hpp].
  rewrite (batch_fetched_at_explicit now1 now2 d Hf) in Hset.
  destruct (for_each_settled now2 _ _ _ items (mkCounters 0 0 0) db1 Hwf1 Hset)
    as (c2 & db2 & Hrun2 & Hc2 & Hu2 & Hp2 & Hrows).
  exists c1, c2, db2. split; [reflexivity|]. split.
  - rewrite (ingest_avito_parsed _ _ _ _ _ _ _ _ Ha Hp), ingest_payload_obj.
    unfold batch_writes, process_items, bind, lift. rewrite Hit, Hrun2.
    reflexivity.
  - rewrite (filter_all _ _ Hall) in *. simpl in *.
    repeat split; try lia. exact Hrows.
Qed.

Lemma reingestion_updates_and_adds_no_price_point_witness :
  wf empty_store /\
  authenticate toy_hexdigest toy_settings (signed "chair-batch") = Ok true /\
  parse toy_decode (toy_loads toy_table) (signed "chair-batch")
  = Ok (Some (JObj chair_batch)) /\
  Py.iter (batch_items chair_batch) = Ok [JObj chair] /\
  Forall (fun item => has_identity item = true) [JObj chair] /\
  truthy (dict_get chair_batch "fetched_at" JNull) = true /\
  ingest_avito toy_hexdigest toy_decode (toy_loads toy_table) toy_settings
    (signed "chair-batch") "t1" empty_store
  = (Ok (accepted (mkCounters 1 0 1)), chair_store) /\
  exists c1 c2 db2,
    accepted (mkCounters 1 0 1) = accepted c1 /\
    ingest_avito toy_hexdigest toy_decode (toy_loads toy_table) toy_settings
      (signed "chair-batch") "t2" chair_store
    = (Ok (accepted c2), db2) /\
    created c2 = 0 /\
    updated c2 = List.length [JObj chair] /\
    updated c2 = created c1 + updated c1 /\
    price_points c2 = price_points c1 /\
    price_point_rows db2 = price_point_rows chair_store.
Proof.
  assert (wf empty_store) as Hwf
    by (split; simpl; intros; try constructor; lia).
  assert (Forall (fun item => has_identity item = true) [JObj chair]) as Hall
    by (repeat constructor).
  split; [exact Hwf|]. split; [reflexivity|]. split; [reflexivity|].
  split; [reflexivity|]. split; [exact Hall|]. split; [reflexivity|].
  split; [reflexivity|].
  apply (reingestion_updates_and_adds_no_price_point toy_hexdigest toy_decode
           (toy_loads toy_table) toy_settings (signed "chair-batch")
           "t1" "t2" chair_batch [JObj chair] empty_store
           (accepted (mkCounters 1 0 1)) chair_store);
    [exact Hwf|reflexivity|reflexivity|reflexivity|exact Hall
    |reflexivity|reflexivity].
Defined.

(** C1, as the specification words it, fails on its own example: the
    first ingestion of the chair commits with [created = 1], and the
    second does not answer [created = 1, updated = 0]. *)
Lemma reingestion_counts_counterexample :
  ingest_avito toy_hexdigest toy_decode (toy_loads toy_table) toy_settings
    (signed "chair-batch") "t1" empty_store
  = (Ok (accepted (mkCounters 1 0 1)), chair_store) /\
  ~ (exists c2 db2,
        ingest_avito toy_hexdigest toy_decode (toy_loads toy_table)
          toy_settings (signed "chair-batch") "t2" chair_store
        = (Ok (accepted c2), db2) /\
        created c2 = 1 /\ updated c2 = 0).
Proof.
  split; [reflexivity|].
  intros (c2 & db2 & H & Hc & Hu).
  destruct c2 as [c u p]. simpl in Hc, Hu. subst c u.
  vm_compute in H. discriminate H.
Qed.

(** ** Reconciliation *)



Lemma wf_chair_store : wf chair_store.
Proof.
  split; simpl.
  - repeat constructor. simpl. tauto.
  - repeat constructor.
  - intros s e. destruct (ad_same_key s e _); simpl; lia.
  - intros ad t p. destruct (pp_same_key ad t p _); simpl; lia.
Defined.



(** ** Defaults and explicit nulls *)



Lemma default_value_get (k : OptionalKey) item target_id :
  default_value k (item_defaults item target_id)
  = dict_get item (key_name k) (key_default k).
Proof. destruct k; reflexivity. Qed.


Lemma update_or_create_columns now s e dfl db a cr db' (k : OptionalKey) :
  AdObjects.update_or_create now s e dfl db = (Ok (a, cr), db') ->
  column k a = default_value k dfl.
Proof.
  intros H. apply update_or_create_ok in H. destruct H as [_ H].
  destruct (filter (ad_same_key s e) (ad_rows db)) as [|obj [|obj2 r]];
    [| |contradiction].
  - destruct H as (_ & -> & _). destruct k; reflexivity.
  - destruct H as (_ & -> & _). destruct k; reflexivity.
Qed.




(** ** The signature check *)

Section Gate.

Variable hexdigest : string -> string -> string.
Variable decode_utf8 : string -> option string.
Variable json_loads : string -> option json.

(** X9.  Without a secret, without a signature, or with a signature in
    ASCII that is not the digest of the body, the answer is 401, the
    store is as it was, and neither [decode_utf8] nor [json_loads]
    has a say: the body is not parsed. *)
Lemma signature_gate_rejects settings request now db :
  INGEST_HMAC_SECRET settings = None \/
  INGEST_HMAC_SECRET settings = Some "" \/
  X_Signature request = None \/
  X_Signature request = Some "" \/
  (exists secret signature,
      INGEST_HMAC_SECRET settings = Some secret /\
      X_Signature request = Some signature /\
      is_ascii signature = true /\
      is_ascii (hexdigest secret (body request)) = true /\
      signature <> hexdigest secret (body request)) ->
  ingest_avito hexdigest decode_utf8 json_loads settings request now db
  = (Ok invalid_signature, db).
Proof.
  unfold ingest_avito, authenticate, _valid_signature, compare_digest,
    bind, lift, ret.
  intros [H|[H|[H|[H|(secret & signature & H1 & H2 & A1 & A2 & Hne)]]]].
  - rewrite H. reflexivity.
  - rewrite H. reflexivity.
  - rewrite H. destruct (INGEST_HMAC_SECRET settings) as [secret|];
      [|reflexivity].
    destruct (String.eqb secret ""); reflexivity.
  - rewrite H. destruct (INGEST_HMAC_SECRET settings) as [secret|];
      [|reflexivity].
    destruct (String.eqb secret ""); reflexivity.
  - rewrite H1, H2, A1, A2.
    destruct (String.eqb secret ""); [reflexivity|].
    destruct (String.eqb signature ""); [reflexivity|]. simpl.
    assert (String.eqb (hexdigest secret (body request)) signature = false)
      as E by (apply String.eqb_neq; congruence).
    rewrite E. reflexivity.
Qed.

(** X10.  A body that [json.loads] refuses is answered with 400 and
    leaves the store as it was. *)
Lemma invalid_json_is_rejected settings request now db text :
  authenticate hexdigest settings request = Ok true ->
  decode_utf8 (body request) = Some text ->
  json_loads text = None ->
  ingest_avito hexdigest decode_utf8 json_loads settings request now db
  = (Ok invalid_json, db).
Proof.
  intros Ha Hd Hl. unfold ingest_avito, parse, bind, lift, ret.
  rewrite Ha, Hd, Hl. reflexivity.
Qed.

(** X11.  A body that is not UTF-8 gets past
    [except json.JSONDecodeError]: the view raises [UnicodeDecodeError],
    and the store is as it was. *)
Lemma undecodable_body_raises settings request now db :
  authenticate hexdigest settings request = Ok true ->
  decode_utf8 (body request) = None ->
  ingest_avito hexdigest decode_utf8 json_loads settings request now db
  = (Raise UnicodeDecodeError, db).
Proof.
  intros Ha Hd. unfold ingest_avito, parse, bind, lift, ret.
  rewrite Ha, Hd. reflexivity.
Qed.

End Gate.

(** C2, where the code departs from it.  With a secret configured, a
    signature header that holds a character outside ASCII is not
    answered with 401: [hmac.compare_digest] raises [TypeError] and the
    view lets it through.  The store is as it was. *)
Theorem non_ascii_signature_raises
    (hexdigest : string -> string -> string)
    (decode_utf8 : string -> option string)
    (json_loads : string -> option json)
    (secret signature raw : string) (now : string) (db : Store) :
  String.eqb secret "" = false ->
  is_ascii signature = false ->
  ingest_avito hexdigest decode_utf8 json_loads
    (mkSettings (Some secret)) (mkRequest (Some signature) raw) now db
  = (Raise TypeError, db).
Proof.
  intros Hs Ha.
  unfold ingest_avito, authenticate, _valid_signature, compare_digest,
    bind, lift. simpl. rewrite Hs.
  assert (String.eqb signature "" = false) as E
    by (destruct signature; [discriminate Ha|reflexivity]).
  rewrite E, Ha, andb_false_r. reflexivity.
Qed.

Lemma non_ascii_signature_raises_witness :
  String.eqb "s3cr3t" "" = false /\
  is_ascii accented = false /\
  ingest_avito toy_hexdigest toy_decode (toy_loads toy_table)
    (mkSettings (Some "s3cr3t")) (mkRequest (Some accented) "chair-batch")
    "t1" chair_store
  = (Raise TypeError, chair_store).
Proof.
  split; [reflexivity|]. split; [reflexivity|].
  apply (non_ascii_signature_raises toy_hexdigest toy_decode
           (toy_loads toy_table) "s3cr3t" accented "chair-batch" "t1"
           chair_store); reflexivity.
Defined.

(** ** Payloads that are not objects *)

(** C5, where the code departs from it.  A correctly signed body that
    is valid JSON but not an object is not answered with 400:
    [payload.get] raises [AttributeError] and the view lets it through.
    The store is as it was. *)
Theorem non_object_payload_raises
    (hexdigest : string -> string -> string)
    (decode_utf8 : string -> option string)
    (json_loads : string -> option json)
    (settings : Settings) (request : Request) (now : string)
    (payload : json) (db : Store) :
  authenticate hexdigest settings request = Ok true ->
  parse decode_utf8 json_loads request = Ok (Some payload) ->
  is_dict payload = false ->
  ingest_avito hexdigest decode_utf8 json_loads settings request now db
  = (Raise AttributeError, db).
Proof.
  intros Ha Hp Hd.
  rewrite (ingest_avito_parsed _ _ _ _ _ _ _ _ Ha Hp).
  apply ingest_payload_not_obj. intros d ->. discriminate Hd.
Qed.

Lemma non_object_payload_raises_witness :
  authenticate toy_hexdigest toy_settings (signed "[]") = Ok true /\
  parse toy_decode (toy_loads toy_table) (signed "[]")
  = Ok (Some (JArr [])) /\
  is_dict (JArr []) = false /\
  ingest_avito toy_hexdigest toy_decode (toy_loads toy_table) toy_settings
    (signed "[]") "t1" chair_store
  = (Raise AttributeError, chair_store).
Proof.
  split; [reflexivity|]. split; [reflexivity|]. split; [reflexivity|].
  apply (non_object_payload_raises toy_hexdigest toy_decode
           (toy_loads toy_table) toy_settings (signed "[]") "t1"
           (JArr []) chair_store); reflexivity.
Defined.

(** ** One observation in two currencies *)

(** The lookup of [get_or_create] has the currency in it, the unique
    constraint has not: where the observation is recorded in another
    currency the lookup misses, the INSERT breaks the constraint, and
    the call raises. *)
Lemma get_or_create_other_currency ad price c1 c2 t db :
  wf db ->
  In (mkPricePoint ad price c1 t) (price_point_rows db) ->
  c1 <> c2 ->
  PricePointObjects.get_or_create ad price c2 t db
  = (Raise IntegrityError, db).
Proof.
  intros Hwf Hin Hne.
  assert (pp_same_key ad t price (mkPricePoint ad price c1 t) = true) as Hk
    by (unfold pp_same_key; simpl;
        rewrite Nat.eqb_refl, !json_eqb_refl; reflexivity).
  assert (filter (PricePointObjects.same_row ad price c2 t)
                 (price_point_rows db) = []) as F.
  { destruct (filter (PricePointObjects.same_row ad price c2 t)
                     (price_point_rows db)) as [|q r] eqn:F; [reflexivity|].
    exfalso. apply filter_In_head in F. destruct F as [Hq Hs].
    apply same_row_iff in Hs. subst q.
    assert (pp_same_key ad t price (mkPricePoint ad price c2 t) = true) as Hk2
      by (unfold pp_same_key; simpl;
          rewrite Nat.eqb_refl, !json_eqb_refl; reflexivity).
    pose proof (wf_pp_key _ Hwf ad t price) as Hlen.
    assert (In (mkPricePoint ad price c1 t)
               (filter (pp_same_key ad t price) (price_point_rows db))) as I1
      by (apply filter_In; auto).
    assert (In (mkPricePoint ad price c2 t)
               (filter (pp_same_key ad t price) (price_point_rows db))) as I2
      by (apply filter_In; auto).
    destruct (filter (pp_same_key ad t price) (price_point_rows db))
      as [|x [|y l]]; simpl in *; [contradiction| |lia].
    destruct I1 as [E1|[]]. destruct I2 as [E2|[]]. congruence. }
  unfold PricePointObjects.get_or_create, bind, PricePointObjects.get.
  rewrite F. unfold PricePointObjects.create.
  destruct (negb _); [reflexivity|].
  assert (existsb (pp_same_key ad t price) (price_point_rows db) = true) as E
    by (apply existsb_exists; eauto).
  rewrite E. reflexivity.
Qed.

(** C4, where the code departs from it.  A batch that reports one ad at
    one instant and one price in two currencies meets a row with the
    exact tuple (ad, collected_at, price) at its second item; the call
    is no quiet no-op: it raises [IntegrityError], and the batch is
    rolled back. *)
Theorem other_currency_fails_the_batch
    (hexdigest : string -> string -> string)
    (decode_utf8 : string -> option string)
    (json_loads : string -> option json)
    (settings : Settings) (request : Request) (now : string) :
  authenticate hexdigest settings request = Ok true ->
  parse decode_utf8 json_loads request
  = Ok (Some (JObj two_currency_batch)) ->
  ingest_avito hexdigest decode_utf8 json_loads settings request now
    empty_store
  = (Raise IntegrityError, empty_store).
Proof.
  intros Ha Hp.
  rewrite (ingest_avito_parsed _ _ _ _ _ _ _ _ Ha Hp). reflexivity.
Qed.

Lemma other_currency_fails_the_batch_witness :
  authenticate toy_hexdigest toy_settings (signed "two-currency-batch")
  = Ok true /\
  parse toy_decode (toy_loads toy_table) (signed "two-currency-batch")
  = Ok (Some (JObj two_currency_batch)) /\
  ingest_avito toy_hexdigest toy_decode (toy_loads toy_table) toy_settings
    (signed "two-currency-batch") "t1" empty_store
  = (Raise IntegrityError, empty_store).
Proof.
  split; [reflexivity|]. split; [reflexivity|].
  apply (other_currency_fails_the_batch toy_hexdigest toy_decode
           (toy_loads toy_table) toy_settings (signed "two-currency-batch")
           "t1"); reflexivity.
Defined.

(** * Further properties of the ingestion *)

(** ** Every outcome of a request *)

Lemma ingest_avito_outcome
    (hexdigest : string -> string -> string)
    (decode_utf8 : string -> option string)
    (json_loads : string -> option json)
    settings request now db :
  (snd (ingest_avito hexdigest decode_utf8 json_loads settings request now db)
   = db /\
   forall c,
     fst (ingest_avito hexdigest decode_utf8 json_loads settings request
            now db) <> Ok (accepted c))
  \/
  (exists d c db',
      authenticate hexdigest settings request = Ok true /\
      parse decode_utf8 json_loads request = Ok (Some (JObj d)) /\
      batch_writes now d db = (Ok c, db') /\
      ingest_avito hexdigest decode_utf8 json_loads settings request now db
      = (Ok (accepted c), db')).
Proof.
  destruct (authenticate hexdigest settings request) as [[|]|e] eqn:Ha.
  - destruct (parse decode_utf8 json_loads request) as [[payload|]|e] eqn:Hp.
    + rewrite (ingest_avito_parsed _ _ _ _ _ _ _ _ Ha Hp).
      destruct (is_dict payload) eqn:Hd.
      * destruct payload; try discriminate Hd.
        rewrite ingest_payload_obj.
        destruct (batch_writes now l db) as [[c|e] db'] eqn:Hw.
        -- right. exists l, c, db'. rewrite Hw at 1. auto.
        -- left. split; [reflexivity|]. intros c. discriminate.
      * left. rewrite ingest_payload_not_obj
          by (intros d ->; discriminate Hd).
        split; [reflexivity|]. intros c. discriminate.
    + left. unfold ingest_avito, bind, lift, ret. rewrite Ha, Hp. simpl.
      split; [reflexivity|]. intros c. discriminate.
    + left. unfold ingest_avito, bind, lift, ret. rewrite Ha, Hp. simpl.
      split; [reflexivity|]. intros c. discriminate.
  - left. unfold ingest_avito, bind, lift, ret. rewrite Ha. simpl.
    split; [reflexivity|]. intros c. discriminate.
  - left. unfold ingest_avito, bind, lift, ret. rewrite Ha. simpl.
    split; [reflexivity|]. intros c. discriminate.
Qed.

(** X1.  Whatever the request, the store after [ingest_avito] satisfies
    the schema if the store before did: keys stay unique, and there is
    still at most one [Ad] for a pair (source, external_id) and one
    [PricePoint] for a triple (ad, collected_at, price). *)
Theorem ingest_keeps_schema
    (hexdigest : string -> string -> string)
    (decode_utf8 : string -> option string)
    (json_loads : string -> option json)
    (settings : Settings) (request : Request) (now : string) (db : Store) :
  wf db ->
  wf (snd (ingest_avito hexdigest decode_utf8 json_loads settings request
             now db)).
Proof.
  intros Hwf.
  destruct (ingest_avito_outcome hexdigest decode_utf8 json_loads settings
              request now db) as [[E _]|(d & c & db' & _ & _ & Hw & E)].
  - rewrite E. exact Hwf.
  - rewrite E. simpl. apply batch_writes_ok in Hw.
    destruct Hw as (items & _ & Hrun).
    eapply for_each_process_wf; eauto.
Qed.

Lemma ingest_keeps_schema_witness :
  wf chair_store /\
  wf (snd (ingest_avito toy_hexdigest toy_decode (toy_loads toy_table)
             toy_settings (signed "repeat-batch") "t2" chair_store)).
Proof.
  split; [exact wf_chair_store|].
  apply (ingest_keeps_schema toy_hexdigest toy_decode (toy_loads toy_table)
           toy_settings (signed "repeat-batch") "t2" chair_store).
  exact wf_chair_store.
Defined.

(** X2.  A request changes the store only if it is answered with 202:
    after a 401, a 400 or an exception the store is what it was. *)
Theorem only_accepted_requests_write
    (hexdigest : string -> string -> string)
    (decode_utf8 : string -> option string)
    (json_loads : string -> option json)
    (settings : Settings) (request : Request) (now : string) (db : Store) :
  snd (ingest_avito hexdigest decode_utf8 json_loads settings request now db)
  = db
  \/
  exists resp,
    fst (ingest_avito hexdigest decode_utf8 json_loads settings request
           now db) = Ok resp /\
    status resp = 202.
Proof.
  destruct (ingest_avito_outcome hexdigest decode_utf8 json_loads settings
              request now db) as [[E _]|(d & c & db' & _ & _ & _ & E)].
  - left. exact E.
  - right. exists (accepted c). rewrite E. split; reflexivity.
Qed.

(** ** The ledger only grows *)

Lemma update_or_create_price_rows now s e dfl db a cr db' :
  AdObjects.update_or_create now s e dfl db = (Ok (a, cr), db') ->
  price_point_rows db' = price_point_rows db.
Proof.
  intros H. apply update_or_create_ok in H. destruct H as [_ H].
  destruct (filter (ad_same_key s e) (ad_rows db)) as [|obj [|obj2 r]];
    [| |contradiction].
  - destruct H as (_ & _ & ->). reflexivity.
  - destruct H as (_ & _ & ->). reflexivity.
Qed.

Lemma process_item_price_rows now src tgt t item c db c' db' :
  process_item now src tgt t item c db = (Ok c', db') ->
  exists added,
    price_point_rows db' = price_point_rows db ++ added /\
    Forall (fun p => pp_collected_at p = t /\ not_null (pp_price p) = true)
           added /\
    price_points c + List.length added <= price_points c'.
Proof.
  intros H. apply process_item_ok in H.
  destruct H as (d & -> & [(_ & -> & ->)|(_ & a & cr & db1 & U & _ & _ & H)]).
  - exists []. rewrite app_nil_r. simpl. repeat split; [constructor|lia].
  - apply update_or_create_price_rows in U.
    destruct H as [(_ & -> & Hp)|(Hpr & Hp & p & pcr & G)].
    + exists []. rewrite app_nil_r. simpl. repeat split;
        [exact U|constructor|lia].
    + apply get_or_create_ok in G. rewrite <- U.
      destruct (filter _ (price_point_rows db1)) as [|q [|q2 r]];
        [| |contradiction].
      * destruct G as (_ & -> & _ & ->). simpl.
        exists [mkPricePoint (ad_id a) (dict_get d "price" JNull)
                  (dict_get d "currency" (JStr "RUB")) t].
        repeat split; [|simpl; lia].
        constructor; [|constructor]. simpl. split; [reflexivity|exact Hpr].
      * destruct G as (_ & _ & ->). exists []. rewrite app_nil_r. simpl.
        repeat split; [constructor|lia].
Qed.

Lemma for_each_price_rows now src tgt t items : forall c db c' db',
  for_each (process_item now src tgt t) items c db = (Ok c', db') ->
  exists added,
    price_point_rows db' = price_point_rows db ++ added /\
    Forall (fun p => pp_collected_at p = t /\ not_null (pp_price p) = true)
           added /\
    price_points c + List.length added <= price_points c'.
Proof.
  induction items as [|item items IH]; simpl; intros c db c' db' H.
  - unfold ret in H. inversion H; subst. exists []. rewrite app_nil_r.
    simpl. repeat split; [constructor|lia].
  - unfold bind in H.
    destruct (process_item now src tgt t item c db) as [[c1|x] db1] eqn:S;
      [|discriminate].
    apply process_item_price_rows in S.
    destruct S as (added1 & E1 & F1 & L1).
    apply IH in H. destruct H as (added2 & E2 & F2 & L2).
    exists (added1 ++ added2). rewrite E2, E1, app_assoc, length_app.
    repeat split; [apply Forall_app; auto|lia].
Qed.

(** X3.  The ledger is append-only: whatever the request, the rows of
    [PricePoint] before it are, unchanged and in place, the first rows
    after it. *)
Theorem ledger_is_append_only
    (hexdigest : string -> string -> string)
    (decode_utf8 : string -> option string)
    (json_loads : string -> option json)
    (settings : Settings) (request : Request) (now : string) (db : Store) :
  exists added,
    price_point_rows
      (snd (ingest_avito hexdigest decode_utf8 json_loads settings request
              now db))
    = price_point_rows db ++ added.
Proof.
  destruct (ingest_avito_outcome hexdigest decode_utf8 json_loads settings
              request now db) as [[E _]|(d & c & db' & _ & _ & Hw & E)].
  - exists []. rewrite E, app_nil_r. reflexivity.
  - rewrite E. simpl. apply batch_writes_ok in Hw.
    destruct Hw as (items & _ & Hrun).
    apply for_each_price_rows in Hrun.
    destruct Hrun as (added & Ha & _). exists added. exact Ha.
Qed.

(** X4.  The rows that a committed batch adds to [PricePoint] all carry
    the collection time of the batch, which is its [fetched_at] or, for
    want of one, the time of the request; none has a null price; and
    there are no more of them than the [price_points] of the response
    says. *)
Theorem added_price_points_carry_fetched_at
    (hexdigest : string -> string -> string)
    (decode_utf8 : string -> option string)
    (json_loads : string -> option json)
    (settings : Settings) (request : Request) (now : string)
    (d : list (string * json)) (db : Store) (c : Counters) (db' : Store) :
  authenticate hexdigest settings request = Ok true ->
  parse decode_utf8 json_loads request = Ok (Some (JObj d)) ->
  ingest_avito hexdigest decode_utf8 json_loads settings request now db
  = (Ok (accepted c), db') ->
  exists added,
    price_point_rows db' = price_point_rows db ++ added /\
    Forall (fun p => pp_collected_at p = batch_fetched_at now d /\
                     not_null (pp_price p) = true) added /\
    List.length added <= price_points c.
Proof.
  intros Ha Hp H.
  destruct (ingest_avito_committed _ _ _ _ _ _ _ _ _ _ Ha Hp H)
    as (c0 & Hw & Hc).
  apply batch_writes_ok in Hw. destruct Hw as (items & _ & Hrun).
  apply for_each_price_rows in Hrun. destruct Hrun as (added & E & F & L).
  exists added. split; [exact E|]. split; [exact F|].
  assert (c = c0) as ->.
  { destruct c, c0. unfold accepted in Hc. simpl in Hc.
    injection Hc as H1 H2 H3.
    apply Nat2Z.inj in H1, H2, H3. congruence. }
  simpl in L. exact L.
Qed.

Lemma added_price_points_carry_fetched_at_witness :
  authenticate toy_hexdigest toy_settings (signed "undated-batch")
  = Ok true /\
  parse toy_decode (toy_loads undated_table) (signed "undated-batch")
  = Ok (Some (JObj undated_batch)) /\
  exists db',
    ingest_avito toy_hexdigest toy_decode (toy_loads undated_table)
      toy_settings (signed "undated-batch") "t2" chair_store
    = (Ok (accepted (mkCounters 0 1 1)), db') /\
    exists added,
      price_point_rows db' = price_point_rows chair_store ++ added /\
      Forall (fun p => pp_collected_at p = JStr "t2" /\
                       not_null (pp_price p) = true) added /\
      List.length added <= 1.
Proof.
  split; [reflexivity|]. split; [reflexivity|].
  eexists. split; [vm_compute; reflexivity|].
  eapply (added_price_points_carry_fetched_at toy_hexdigest toy_decode
            (toy_loads undated_table) toy_settings (signed "undated-batch")
            "t2" undated_batch chair_store (mkCounters 0 1 1));
    [reflexivity|reflexivity|vm_compute; reflexivity].
Defined.

(** ** Rows of [Ad] are kept *)

Lemma same_ad_refl a : same_ad a a.
Proof. repeat split. Qed.

Lemma same_ad_trans a b c : same_ad a b -> same_ad b c -> same_ad a c.
Proof. unfold same_ad. intuition congruence. Qed.

Lemma update_or_create_keeps_rows now s e dfl db a cr db' :
  wf db ->
  AdObjects.update_or_create now s e dfl db = (Ok (a, cr), db') ->
  forall r, In r (ad_rows db) ->
            exists r', In r' (ad_rows db') /\ same_ad r r'.
Proof.
  intros Hwf H r Hr. apply update_or_create_ok in H. destruct H as [_ H].
  destruct (filter (ad_same_key s e) (ad_rows db)) as [|obj [|obj2 l]] eqn:F;
    [| |contradiction].
  - destruct H as (_ & _ & ->). simpl. exists r.
    split; [apply in_or_app; auto|apply same_ad_refl].
  - destruct H as (_ & Ha & ->). simpl.
    exists (written a r). split; [apply in_map; exact Hr|].
    unfold written. destruct (Nat.eqb (ad_id r) (ad_id a)) eqn:E;
      [|apply same_ad_refl].
    apply Nat.eqb_eq in E.
    assert (Hobj : In obj (ad_rows db) /\ ad_same_key s e obj = true)
      by (eapply filter_In_head; eauto).
    destruct Hobj as [Hin _].
    assert (r = obj) as ->.
    { eapply NoDup_map_inj; eauto using wf_ids. subst a. exact E. }
    subst a. repeat split.
Qed.

Lemma process_item_keeps_rows now src tgt t item c db c' db' :
  wf db ->
  process_item now src tgt t item c db = (Ok c', db') ->
  forall r, In r (ad_rows db) ->
            exists r', In r' (ad_rows db') /\ same_ad r r'.
Proof.
  intros Hwf H r Hr. apply process_item_ok in H.
  destruct H as (d & -> & [(_ & _ & ->)|(_ & a & cr & db1 & U & _ & _ & H)]).
  - exists r. split; [exact Hr|apply same_ad_refl].
  - destruct (update_or_create_keeps_rows _ _ _ _ _ _ _ _ Hwf U r Hr)
      as (r' & Hr' & Hs).
    exists r'. split; [|exact Hs].
    destruct H as [(_ & -> & _)|(_ & _ & p & pcr & G)]; [exact Hr'|].
    rewrite (get_or_create_ad_rows _ _ _ _ _ _ _ _ G). exact Hr'.
Qed.

Lemma for_each_keeps_rows now src tgt t items : forall c db c' db',
  wf db ->
  for_each (process_item now src tgt t) items c db = (Ok c', db') ->
  forall r, In r (ad_rows db) ->
            exists r', In r' (ad_rows db') /\ same_ad r r'.
Proof.
  induction items as [|item items IH]; simpl; intros c db c' db' Hwf H r Hr.
  - unfold ret in H. inversion H; subst. exists r.
    split; [exact Hr|apply same_ad_refl].
  - unfold bind in H.
    destruct (process_item now src tgt t item c db) as [[c1|x] db1] eqn:S;
      [|discriminate].
    destruct (process_item_keeps_rows _ _ _ _ _ _ _ _ _ Hwf S r Hr)
      as (r1 & Hr1 & Hs1).
    pose proof (process_item_wf _ _ _ _ _ _ _ _ _ Hwf S) as Hwf1.
    destruct (IH _ _ _ _ Hwf1 H r1 Hr1) as (r' & Hr' & Hs').
    exists r'. split; [exact Hr'|eapply same_ad_trans; eauto].
Qed.

(** X5.  The ingestion deletes no [Ad] and gives none a new identity:
    whatever the request, every row of [Ad] before it has its row after
    it, with the same key, the same pair (source, external_id) and the
    [created_at] it was given when it was made. *)
Theorem ads_are_kept
    (hexdigest : string -> string -> string)
    (decode_utf8 : string -> option string)
    (json_loads : string -> option json)
    (settings : Settings) (request : Request) (now : string) (db : Store)
    (a : Ad) :
  wf db ->
  In a (ad_rows db) ->
  exists a',
    In a' (ad_rows (snd (ingest_avito hexdigest decode_utf8 json_loads
                           settings request now db))) /\
    ad_id a' = ad_id a /\
    ad_source a' = ad_source a /\
    ad_external_id a' = ad_external_id a /\
    ad_created_at a' = ad_created_at a.
Proof.
  intros Hwf Hin.
  destruct (ingest_avito_outcome hexdigest decode_utf8 json_loads settings
              request now db) as [[E _]|(d & c & db' & _ & _ & Hw & E)].
  - rewrite E. exists a. auto.
  - rewrite E. simpl. apply batch_writes_ok in Hw.
    destruct Hw as (items & _ & Hrun).
    destruct (for_each_keeps_rows _ _ _ _ _ _ _ _ _ Hwf Hrun a Hin)
      as (a' & Hin' & Hs).
    exists a'. split; [exact Hin'|exact Hs].
Qed.

Lemma ads_are_kept_witness :
  wf chair_store /\
  In chair_row (ad_rows chair_store) /\
  exists a',
    In a' (ad_rows (snd (ingest_avito toy_hexdigest toy_decode
                           (toy_loads toy_table) toy_settings
                           (signed "repeat-batch") "t2" chair_store))) /\
    ad_id a' = 1 /\
    ad_source a' = JStr "avito" /\
    ad_external_id a' = JStr "123" /\
    ad_created_at a' = "t1".
Proof.
  assert (In chair_row (ad_rows chair_store)) as Hin by (left; reflexivity).
  split; [exact wf_chair_store|]. split; [exact Hin|].
  apply (ads_are_kept toy_hexdigest toy_decode (toy_loads toy_table)
           toy_settings (signed "repeat-batch") "t2" chair_store chair_row
           wf_chair_store Hin).
Defined.

(** ** The foreign key of the ledger *)

Lemma update_or_create_ids now s e dfl db a cr db' :
  AdObjects.update_or_create now s e dfl db = (Ok (a, cr), db') ->
  In (ad_id a) (map ad_id (ad_rows db')) /\
  incl (map ad_id (ad_rows db)) (map ad_id (ad_rows db')).
Proof.
  intros H. apply update_or_create_ok in H. destruct H as [_ H].
  destruct (filter (ad_same_key s e) (ad_rows db)) as [|obj [|obj2 l]] eqn:F;
    [| |contradiction].
  - destruct H as (_ & _ & ->). simpl. rewrite map_app. split.
    + apply in_or_app. right. left. reflexivity.
    + apply incl_appl, incl_refl.
  - destruct H as (_ & Ha & ->). simpl.
    rewrite map_map, (map_ext _ ad_id) by (intros; apply written_id).
    split; [|apply incl_refl].
    apply filter_In_head in F. destruct F as [Hin _].
    replace (ad_id a) with (ad_id obj) by (subst a; reflexivity).
    apply in_map. exact Hin.
Qed.

Lemma process_item_fk now src tgt t item c db c' db' :
  fk_ok db ->
  process_item now src tgt t item c db = (Ok c', db') ->
  fk_ok db'.
Proof.
  unfold fk_ok. intros Hfk H. apply process_item_ok in H.
  destruct H as (d & -> & [(_ & _ & ->)|(_ & a & cr & db1 & U & _ & _ & H)]);
    [exact Hfk|].
  destruct (update_or_create_ids _ _ _ _ _ _ _ _ U) as [Hid Hincl].
  pose proof (update_or_create_price_rows _ _ _ _ _ _ _ _ U) as Hrows.
  assert (Forall (fun p => In (pp_ad p) (map ad_id (ad_rows db1)))
                 (price_point_rows db1)) as Hfk1.
  { rewrite Hrows. eapply Forall_impl; [|exact Hfk].
    intros p Hp. apply Hincl. exact Hp. }
  destruct H as [(_ & -> & _)|(_ & _ & p & pcr & G)]; [exact Hfk1|].
  apply get_or_create_ok in G.
  destruct (filter _ (price_point_rows db1)) as [|q [|q2 r]];
    [| |contradiction].
  - destruct G as (_ & -> & _ & ->). simpl.
    apply Forall_app. split; [exact Hfk1|].
    constructor; [exact Hid|constructor].
  - destruct G as (_ & _ & ->). exact Hfk1.
Qed.

Lemma for_each_fk now src tgt t items : forall c db c' db',
  fk_ok db ->
  for_each (process_item now src tgt t) items c db = (Ok c', db') ->
  fk_ok db'.
Proof.
  induction items as [|item items IH]; simpl; intros c db c' db' Hfk H.
  - unfold ret in H. inversion H; subst. exact Hfk.
  - unfold bind in H.
    destruct (process_item now src tgt t item c db) as [[c1|x] db1] eqn:S;
      [|discriminate].
    eapply IH; [|exact H]. eapply process_item_fk; eauto.
Qed.

(** X6.  The ingestion leaves no price point without its ad: if every
    row of [PricePoint] refers to a row of [Ad] before a request, so
    does every row after it. *)
Theorem ledger_refers_to_ads
    (hexdigest : string -> string -> string)
    (decode_utf8 : string -> option string)
    (json_loads : string -> option json)
    (settings : Settings) (request : Request) (now : string) (db : Store) :
  fk_ok db ->
  fk_ok (snd (ingest_avito hexdigest decode_utf8 json_loads settings request
                now db)).
Proof.
  intros Hfk.
  destruct (ingest_avito_outcome hexdigest decode_utf8 json_loads settings
              request now db) as [[E _]|(d & c & db' & _ & _ & Hw & E)].
  - rewrite E. exact Hfk.
  - rewrite E. simpl. apply batch_writes_ok in Hw.
    destruct Hw as (items & _ & Hrun).
    eapply for_each_fk; eauto.
Qed.

Lemma ledger_refers_to_ads_witness :
  fk_ok chair_store /\
  fk_ok (snd (ingest_avito toy_hexdigest toy_decode (toy_loads toy_table)
                toy_settings (signed "repeat-batch") "t2" chair_store)).
Proof.
  assert (fk_ok chair_store) as Hfk
    by (repeat constructor).
  split; [exact Hfk|].
  apply (ledger_refers_to_ads toy_hexdigest toy_decode (toy_loads toy_table)
           toy_settings (signed "repeat-batch") "t2" chair_store Hfk).
Defined.

(** ** What a committed batch leaves behind *)

Lemma update_or_create_other_key now s e' dfl db a cr db' e :
  wf db ->
  AdObjects.update_or_create now s e' dfl db = (Ok (a, cr), db') ->
  same_text e' e = false ->
  filter (ad_same_key s e) (ad_rows db')
  = filter (ad_same_key s e) (ad_rows db).
Proof.
  intros Hwf H Hne. apply update_or_create_ok in H. destruct H as [_ H].
  destruct (filter (ad_same_key s e') (ad_rows db)) as [|obj [|obj2 l]] eqn:F;
    [| |contradiction].
  - destruct H as (_ & -> & ->). simpl. rewrite filter_app. simpl.
    unfold ad_same_key at 2. simpl. rewrite !same_text_stored_l, Hne.
    rewrite andb_false_r, app_nil_r. reflexivity.
  - destruct H as (_ & Ha & ->). simpl.
    assert (Hobj : In obj (ad_rows db) /\ ad_same_key s e' obj = true)
      by (eapply filter_In_head; eauto).
    destruct Hobj as [Hin Hk].
    rewrite (filter_written _ _ obj a (wf_ids _ Hwf) Hin)
      by (subst a; reflexivity).
    rewrite <- (map_id (filter (ad_same_key s e) (ad_rows db))) at 2.
    apply map_ext_in. intros r Hr. apply filter_In in Hr.
    destruct Hr as [Hr Hkr]. unfold written.
    destruct (Nat.eqb (ad_id r) (ad_id a)) eqn:E; [|reflexivity].
    exfalso. apply Nat.eqb_eq in E.
    assert (r = obj) as ->.
    { eapply NoDup_map_inj; eauto using wf_ids. subst a. exact E. }
    apply ad_same_key_iff in Hk, Hkr. destruct Hk as [_ Hk], Hkr as [_ Hkr].
    assert (same_text e' e = true) by (apply same_text_iff; congruence).
    congruence.
Qed.

Lemma process_item_other_key now src tgt t item c db c' db' e :
  wf db ->
  process_item now src tgt t item c db = (Ok c', db') ->
  has_identity item = false \/ same_text (external_id_of item) e = false ->
  filter (ad_same_key src e) (ad_rows db')
  = filter (ad_same_key src e) (ad_rows db).
Proof.
  intros Hwf H Hother. apply process_item_ok in H.
  destruct H as (d & -> & [(_ & _ & ->)|(Hid & a & cr & db1 & U & _ & _ & H)]);
    [reflexivity|].
  destruct Hother as [Hno|Hne]; [congruence|]. simpl in Hne.
  assert (ad_rows db' = ad_rows db1) as ->.
  { destruct H as [(_ & -> & _)|(_ & _ & p & pcr & G)]; [reflexivity|].
    eapply get_or_create_ad_rows; eauto. }
  eapply update_or_create_other_key; eauto.
Qed.

Lemma for_each_other_key now src tgt t items e : forall c db c' db',
  wf db ->
  for_each (process_item now src tgt t) items c db = (Ok c', db') ->
  not_seen_again e items ->
  filter (ad_same_key src e) (ad_rows db')
  = filter (ad_same_key src e) (ad_rows db).
Proof.
  induction items as [|item items IH]; simpl; intros c db c' db' Hwf H Hns.
  - unfold ret in H. inversion H; subst. reflexivity.
  - unfold bind in H.
    destruct (process_item now src tgt t item c db) as [[c1|x] db1] eqn:S;
      [|discriminate].
    inversion Hns as [|y ys Hitem Hrest]; subst.
    rewrite (IH _ _ _ _ (process_item_wf _ _ _ _ _ _ _ _ _ Hwf S) H Hrest).
    eapply process_item_other_key; eauto.
Qed.

(** The row that a turn of the loop leaves for its item. *)
Lemma process_item_row now src tgt t d c db c' db' :
  wf db ->
  process_item now src tgt t (JObj d) c db = (Ok c', db') ->
  truthy (dict_get d "external_id" JNull) = true ->
  exists a,
    filter (ad_same_key src (dict_get d "external_id" JNull)) (ad_rows db')
    = [a] /\
    ad_target_id a = fk_value tgt /\ ad_last_seen_at a = now /\
    forall k, column k a = default_value k (item_defaults d tgt).
Proof.
  intros Hwf H T. apply process_item_ok in H.
  destruct H as (d' & Hd & [(Hid & _)|(_ & a & cr & db1 & U & _ & _ & H)]);
    inversion Hd; subst d'; [simpl in Hid; congruence|].
  exists a.
  assert (ad_rows db' = ad_rows db1) as ->.
  { destruct H as [(_ & -> & _)|(_ & _ & p & pcr & G)]; [reflexivity|].
    eapply get_or_create_ad_rows; eauto. }
  destruct (update_or_create_finds_own _ _ _ _ _ _ _ _ Hwf U) as [F _].
  split; [exact F|].
  assert (forall k, column k a = default_value k (item_defaults d tgt)) as Hc
    by (intros k; eapply update_or_create_columns; eauto).
  apply update_or_create_ok in U. destruct U as [_ U].
  destruct (filter _ (ad_rows db)) as [|obj [|obj2 l]]; [| |contradiction].
  - destruct U as (_ & -> & _). auto.
  - destruct U as (_ & -> & _). auto.
Qed.

Lemma process_item_keeps_stamp now src tgt t item c db c' db' e :
  wf db ->
  process_item now src tgt t item c db = (Ok c', db') ->
  stamped src tgt now db e -> stamped src tgt now db' e.
Proof.
  intros Hwf H Hst.
  destruct (has_identity item) eqn:Hid.
  - destruct (same_text (external_id_of item) e) eqn:Hne.
    + destruct item as [| | | | |d]; try discriminate Hid.
      simpl in Hid, Hne. apply same_text_iff in Hne.
      destruct (process_item_row _ _ _ _ _ _ _ _ _ Hwf H Hid)
        as (a & F & Ht & Hl & _).
      exists a.
      rewrite <- (filter_same_key_ext src _ src e _ eq_refl Hne). auto.
    + unfold stamped.
      rewrite (process_item_other_key _ _ _ _ _ _ _ _ _ e Hwf H (or_intror Hne)).
      exact Hst.
  - unfold stamped.
    rewrite (process_item_other_key _ _ _ _ _ _ _ _ _ e Hwf H (or_introl Hid)).
    exact Hst.
Qed.

Lemma for_each_keeps_stamp now src tgt t items e : forall c db c' db',
  wf db ->
  for_each (process_item now src tgt t) items c db = (Ok c', db') ->
  stamped src tgt now db e -> stamped src tgt now db' e.
Proof.
  induction items as [|item items IH]; simpl; intros c db c' db' Hwf H Hst.
  - unfold ret in H. inversion H; subst. exact Hst.
  - unfold bind in H.
    destruct (process_item now src tgt t item c db) as [[c1|x] db1] eqn:S;
      [|discriminate].
    eapply IH; [|exact H|].
    + eapply process_item_wf; eauto.
    + eapply process_item_keeps_stamp; eauto.
Qed.

Lemma for_each_stamps now src tgt t items : forall c db c' db',
  wf db ->
  for_each (process_item now src tgt t) items c db = (Ok c', db') ->
  Forall (fun item => has_identity item = true ->
                      stamped src tgt now db' (external_id_of item)) items.
Proof.
  induction items as [|item items IH]; simpl; intros c db c' db' Hwf H.
  - constructor.
  - unfold bind in H.
    destruct (process_item now src tgt t item c db) as [[c1|x] db1] eqn:S;
      [|discriminate].
    pose proof (process_item_wf _ _ _ _ _ _ _ _ _ Hwf S) as Hwf1.
    constructor; [|eapply IH; eauto].
    intros Hid. eapply for_each_keeps_stamp; [exact Hwf1|exact H|].
    destruct item as [| | | | |d]; try discriminate Hid. simpl in *.
    destruct (process_item_row _ _ _ _ _ _ _ _ _ Hwf S Hid)
      as (a & F & Ht & Hl & _).
    exists a. auto.
Qed.


(** X8.  Last write wins.  After a committed batch, the [Ad] of an
    identity holds, in all the nine columns that an item fills, the
    values of the last item of the batch that has the identity, the
    documented defaults standing in for the keys that item lacks.  Two
    items have one identity when their [external_id]s are one text, as
    123 and the text [123] are. *)
Theorem last_item_wins
    (hexdigest : string -> string -> string)
    (decode_utf8 : string -> option string)
    (json_loads : string -> option json)
    (settings : Settings) (request : Request) (now : string)
    (d : list (string * json)) (before after : list json)
    (item : list (string * json))
    (db : Store) (resp : Response) (db' : Store) :
  wf db ->
  authenticate hexdigest settings request = Ok true ->
  parse decode_utf8 json_loads request = Ok (Some (JObj d)) ->
  Py.iter (batch_items d) = Ok (before ++ JObj item :: after) ->
  ingest_avito hexdigest decode_utf8 json_loads settings request now db
  = (Ok resp, db') ->
  truthy (dict_get item "external_id" JNull) = true ->
  not_seen_again (dict_get item "external_id" JNull) after ->
  exists a,
    filter (ad_same_key (batch_source d) (dict_get item "external_id" JNull))
           (ad_rows db') = [a] /\
    forall k : OptionalKey,
      column k a = dict_get item (key_name k) (key_default k).
Proof.
  intros Hwf Ha Hp Hit H T Hns.
  destruct (ingest_avito_committed _ _ _ _ _ _ _ _ _ _ Ha Hp H)
    as (c & Hw & _).
  apply batch_writes_ok in Hw. destruct Hw as (items' & Hit' & Hrun).
  rewrite Hit in Hit'. inversion Hit'; subst items'. clear Hit'.
  rewrite for_each_app in Hrun. unfold bind in Hrun.
  destruct (for_each _ before _ db) as [[c0|x] db0] eqn:R0; [|discriminate].
  pose proof (for_each_process_wf _ _ _ _ _ _ _ _ _ Hwf R0) as Hwf0.
  cbn [for_each] in Hrun. unfold bind in Hrun.
  destruct (process_item _ _ _ _ (JObj item) c0 db0) as [[c1|x] db1] eqn:S;
    [|discriminate].
  pose proof (process_item_wf _ _ _ _ _ _ _ _ _ Hwf0 S) as Hwf1.
  destruct (process_item_row _ _ _ _ _ _ _ _ _ Hwf0 S T)
    as (a & F & _ & _ & Hc).
  exists a. split.
  - rewrite (for_each_other_key _ _ _ _ _ _ _ _ _ _ Hwf1 Hrun Hns). exact F.
  - intros k. rewrite Hc. apply default_value_get.
Qed.


Lemma last_item_wins_witness :
  wf empty_store /\
  authenticate toy_hexdigest toy_settings (signed "mixed-batch") = Ok true /\
  parse toy_decode (toy_loads mixed_table) (signed "mixed-batch")
  = Ok (Some (JObj mixed_batch)) /\
  Py.iter (batch_items mixed_batch)
  = Ok ([JObj chair] ++ JObj chair_number :: []) /\
  truthy (dict_get chair_number "external_id" JNull) = true /\
  not_seen_again (dict_get chair_number "external_id" JNull) [] /\
  exists db',
    ingest_avito toy_hexdigest toy_decode (toy_loads mixed_table)
      toy_settings (signed "mixed-batch") "t1" empty_store
    = (Ok (accepted (mkCounters 1 1 1)), db') /\
    exists a,
      filter (ad_same_key (JStr "avito") (JStr "123")) (ad_rows db') = [a] /\
      forall k : OptionalKey,
        column k a = dict_get chair_number (key_name k) (key_default k).
Proof.
  assert (wf empty_store) as Hwf
    by (split; simpl; intros; try constructor; lia).
  assert (not_seen_again (dict_get chair_number "external_id" JNull) [])
    as Hns by constructor.
  split; [exact Hwf|]. split; [reflexivity|]. split; [reflexivity|].
  split; [reflexivity|]. split; [reflexivity|]. split; [exact Hns|].
  eexists. split; [vm_compute; reflexivity|].
  rewrite (filter_same_key_ext (JStr "avito") (JStr "123") (JStr "avito")
             (dict_get chair_number "external_id" JNull) _ eq_refl eq_refl).
  eapply (last_item_wins toy_hexdigest toy_decode (toy_loads mixed_table)
            toy_settings (signed "mixed-batch") "t1" mixed_batch
            [JObj chair] [] chair_number empty_store);
    [exact Hwf|reflexivity|reflexivity|reflexivity|vm_compute; reflexivity
    |reflexivity|exact Hns].
Defined.

(** ** The gate and the parser, where they do what is written *)

Lemma signature_gate_rejects_witness :
  INGEST_HMAC_SECRET toy_settings = Some "s3cr3t" /\
  is_ascii "deadbeef" = true /\
  ingest_avito toy_hexdigest toy_decode (toy_loads toy_table) toy_settings
    (mkRequest (Some "deadbeef") "chair-batch") "t1" chair_store
  = (Ok invalid_signature, chair_store).
Proof.
  split; [reflexivity|]. split; [reflexivity|].
  apply (signature_gate_rejects toy_hexdigest toy_decode (toy_loads toy_table)
           toy_settings (mkRequest (Some "deadbeef") "chair-batch") "t1"
           chair_store).
  right. right. right. right. exists "s3cr3t", "deadbeef".
  split; [reflexivity|]. split; [reflexivity|]. split; [reflexivity|].
  split; [reflexivity|]. intros E. vm_compute in E. discriminate E.
Defined.

Lemma invalid_json_is_rejected_witness :
  authenticate toy_hexdigest toy_settings (signed garbled) = Ok true /\
  toy_decode (body (signed garbled)) = Some garbled /\
  toy_loads toy_table garbled = None /\
  ingest_avito toy_hexdigest toy_decode (toy_loads toy_table) toy_settings
    (signed garbled) "t1" chair_store
  = (Ok invalid_json, chair_store).
Proof.
  split; [reflexivity|]. split; [reflexivity|]. split; [reflexivity|].
  apply (invalid_json_is_rejected toy_hexdigest toy_decode
           (toy_loads toy_table) toy_settings (signed garbled) "t1"
           chair_store garbled); reflexivity.
Defined.

Lemma undecodable_body_raises_witness :
  authenticate toy_hexdigest toy_settings (signed accented) = Ok true /\
  toy_decode (body (signed accented)) = None /\
  ingest_avito toy_hexdigest toy_decode (toy_loads toy_table) toy_settings
    (signed accented) "t1" chair_store
  = (Raise UnicodeDecodeError, chair_store).
Proof.
  split; [reflexivity|]. split; [reflexivity|].
  apply (undecodable_body_raises toy_hexdigest toy_decode
           (toy_loads toy_table) toy_settings (signed accented) "t1"
           chair_store); reflexivity.
Defined.

(** X12.  The gate lets a request through exactly when a secret is
    configured, is not empty, and the [X-Signature] header is the digest
    of the raw body under that secret. *)
Theorem gate_admits_the_digest_only
    (hexdigest : string -> string -> string)
    (settings : Settings) (request : Request) :
  authenticate hexdigest settings request = Ok true
  <->
  exists secret,
    INGEST_HMAC_SECRET settings = Some secret /\
    secret <> "" /\
    X_Signature request = Some (hexdigest secret (body request)) /\
    hexdigest secret (body request) <> "" /\
    is_ascii (hexdigest secret (body request)) = true.
Proof.
  unfold authenticate, _valid_signature, compare_digest. split.
  - destruct (INGEST_HMAC_SECRET settings) as [secret|]; [|discriminate].
    destruct (String.eqb secret "") eqn:Es; [discriminate|].
    destruct (X_Signature request) as [sig|]; [|discriminate].
    destruct (String.eqb sig "") eqn:Eg; [discriminate|].
    destruct (is_ascii (hexdigest secret (body request))) eqn:A1;
      [|discriminate].
    destruct (is_ascii sig) eqn:A2; [|discriminate]. simpl.
    intros H. injection H as E. apply String.eqb_eq in E. subst sig.
    exists secret. apply String.eqb_neq in Es, Eg. auto.
  - intros (secret & -> & Hs & -> & Hg & A).
    apply String.eqb_neq in Hs, Hg. rewrite Hs, Hg, A. simpl.
    rewrite String.eqb_refl. reflexivity.
Qed.

(** ** A new ad *)

(** X14.  Take an item with a non-empty [external_id] whose pair
    (source, external_id) has no row in [Ad].  When its turn of the loop
    ends well, it has added one row at the end of the table and touched
    no other: the row has a key that no row had, the pair of the item,
    the target of the batch and, in the nine columns that an item
    fills, the values of the item, the documented defaults standing in
    for the keys it lacks; and the item counts as created. *)
Theorem reconcile_creates
    (now : string) (source target_id fetched_at : json)
    (item : list (string * json)) (c : Counters) (db : Store)
    (c' : Counters) (db' : Store) :
  wf db ->
  truthy (dict_get item "external_id" JNull) = true ->
  has_ad db source (dict_get item "external_id" JNull) = false ->
  process_item now source target_id fetched_at (JObj item) c db
  = (Ok c', db') ->
  created c' = created c + 1 /\
  updated c' = updated c /\
  exists row,
    ad_rows db' = ad_rows db ++ [row] /\
    ~ In (ad_id row) (map ad_id (ad_rows db)) /\
    ad_same_key source (dict_get item "external_id" JNull) row = true /\
    ad_target_id row = fk_value target_id /\
    forall k : OptionalKey,
      column k row = dict_get item (key_name k) (key_default k).
Proof.
  intros Hwf T Hno H.
  apply process_item_ok in H.
  destruct H as (d & Hd & [(Hid & _)|(_ & a & cr & db1 & U & Hc & Hu & H)]);
    inversion Hd; subst d; [simpl in Hid; congruence|].
  assert (ad_rows db' = ad_rows db1) as Hrows.
  { destruct H as [(_ & -> & _)|(_ & _ & p & pcr & G)]; [reflexivity|].
    eapply get_or_create_ad_rows; eauto. }
  assert (forall k, column k a = default_value k (item_defaults item target_id))
    as Hcol by (intros k; eapply update_or_create_columns; eauto).
  apply update_or_create_ok in U. destruct U as [_ U].
  unfold has_ad in Hno. rewrite (proj2 (filter_nil_existsb _ _) Hno) in U.
  destruct U as (-> & Ha & Hdb1). simpl in Hc, Hu.
  split; [lia|]. split; [lia|].
  exists a. rewrite Hrows, Hdb1. simpl.
  split; [reflexivity|]. split.
  - subst a. simpl. intros Hin. apply in_map_iff in Hin.
    destruct Hin as (r & Hr & Hin).
    pose proof (wf_fresh _ Hwf) as Hf. rewrite Forall_forall in Hf.
    specialize (Hf r Hin). lia.
  - split.
    + subst a. unfold ad_same_key. simpl.
      rewrite !same_text_stored_l, !same_text_refl.
      reflexivity.
    + split; [subst a; reflexivity|].
      intros k. rewrite Hcol. apply default_value_get.
Qed.

Lemma reconcile_creates_witness :
  wf empty_store /\
  truthy (dict_get chair "external_id" JNull) = true /\
  has_ad empty_store (JStr "avito") (dict_get chair "external_id" JNull)
  = false /\
  process_item "t1" (JStr "avito") (JStr "7") (JStr "2024-01-01T00:00:00Z")
    (JObj chair) (mkCounters 0 0 0) empty_store
  = (Ok (mkCounters 1 0 1), chair_store) /\
  created (mkCounters 1 0 1) = created (mkCounters 0 0 0) + 1 /\
  updated (mkCounters 1 0 1) = updated (mkCounters 0 0 0) /\
  exists row,
    ad_rows chair_store = ad_rows empty_store ++ [row] /\
    ~ In (ad_id row) (map ad_id (ad_rows empty_store)) /\
    ad_same_key (JStr "avito") (dict_get chair "external_id" JNull) row
    = true /\
    ad_target_id row = fk_value (JStr "7") /\
    forall k : OptionalKey,
      column k row = dict_get chair (key_name k) (key_default k).
Proof.
  assert (wf empty_store) as Hwf
    by (split; simpl; intros; try constructor; lia).
  split; [exact Hwf|]. split; [reflexivity|]. split; [reflexivity|].
  split; [reflexivity|].
  apply (reconcile_creates "t1" (JStr "avito") (JStr "7")
           (JStr "2024-01-01T00:00:00Z") chair (mkCounters 0 0 0)
           empty_store (mkCounters 1 0 1) chair_store Hwf eq_refl eq_refl
           eq_refl).
Defined.

(** X15.  The default of [items] stands in for an absent key only: a
    payload without [items] is accepted as an empty batch, with the three
    counters at zero and the store as it was; a payload whose [items] is
    null is not: the loop raises [TypeError], and the store is as it
    was. *)
Theorem items_absent_or_null
    (hexdigest : string -> string -> string)
    (decode_utf8 : string -> option string)
    (json_loads : string -> option json)
    (settings : Settings) (request : Request) (now : string)
    (d : list (string * json)) (db : Store) :
  authenticate hexdigest settings request = Ok true ->
  parse decode_utf8 json_loads request = Ok (Some (JObj d)) ->
  (Py.lookup d "items" = None ->
   ingest_avito hexdigest decode_utf8 json_loads settings request now db
   = (Ok (accepted (mkCounters 0 0 0)), db)) /\
  (Py.lookup d "items" = Some JNull ->
   ingest_avito hexdigest decode_utf8 json_loads settings request now db
   = (Raise TypeError, db)).
Proof.
  intros Ha Hp.
  rewrite (ingest_avito_parsed _ _ _ _ _ _ _ _ Ha Hp), ingest_payload_obj.
  unfold batch_writes, process_items, batch_items, dict_get, bind, lift.
  split; intros ->; reflexivity.
Qed.

Lemma items_absent_or_null_witness :
  authenticate toy_hexdigest toy_settings (signed "no-items") = Ok true /\
  parse toy_decode (toy_loads [("no-items", JObj [("target_id", JNum 7)])])
    (signed "no-items")
  = Ok (Some (JObj [("target_id", JNum 7)])) /\
  ingest_avito toy_hexdigest toy_decode
    (toy_loads [("no-items", JObj [("target_id", JNum 7)])]) toy_settings
    (signed "no-items") "t1" chair_store
  = (Ok (accepted (mkCounters 0 0 0)), chair_store).
Proof.
  split; [reflexivity|]. split; [reflexivity|].
  apply (proj1 (items_absent_or_null toy_hexdigest toy_decode
                  (toy_loads [("no-items", JObj [("target_id", JNum 7)])])
                  toy_settings (signed "no-items") "t1"
                  [("target_id", JNum 7)] chair_store eq_refl eq_refl)).
  reflexivity.
Defined.

(** * The read side *)

(** ** Targets *)

(** X16.  A user who is no superuser is shown the own targets and no
    others; the object permission never turns such a user away from a
    target of the list, whatever the method; and no target is on the
    lists of two such users. *)
Theorem own_targets_only
    (user other : User) (targets : list ParseTarget) (t : ParseTarget) :
  is_superuser user = false ->
  (In t (ParseTargetViewSet.get_queryset user targets)
   <-> In t targets /\ pt_owner_id t = user_id user) /\
  (In t (ParseTargetViewSet.get_queryset user targets) ->
   forall method,
     IsOwnerOrReadOnly.has_object_permission method
       (Some (pt_owner_id t)) (Some (user_id user)) = true) /\
  (is_superuser other = false ->
   user_id other <> user_id user ->
   In t (ParseTargetViewSet.get_queryset user targets) ->
   ~ In t (ParseTargetViewSet.get_queryset other targets)).
Proof.
  intros Hu. unfold ParseTargetViewSet.get_queryset. rewrite Hu.
  split; [|split].
  - rewrite filter_In, Z.eqb_eq. reflexivity.
  - intros H method. apply filter_In in H. destruct H as [_ H].
    unfold IsOwnerOrReadOnly.has_object_permission. simpl.
    rewrite H. destruct (_ || _); reflexivity.
  - intros Ho Hne H1. rewrite Ho. intros H2.
    apply filter_In in H1, H2. destruct H1 as [_ H1], H2 as [_ H2].
    apply Z.eqb_eq in H1, H2. congruence.
Qed.

Lemma own_targets_only_witness :
  is_superuser olga = false /\
  (In (target_of 7 10) (ParseTargetViewSet.get_queryset olga toy_targets)
   <-> In (target_of 7 10) toy_targets /\
       pt_owner_id (target_of 7 10) = user_id olga).
Proof.
  split; [reflexivity|].
  apply (proj1 (own_targets_only olga pavel toy_targets (target_of 7 10)
                  eq_refl)).
Defined.

(** X17.  The object permission does not look at [is_superuser]: a
    superuser is shown every target, and is refused every method that is
    not safe on a target that another user owns. *)
Theorem superuser_reads_but_does_not_write
    (user : User) (targets : list ParseTarget) (t : ParseTarget)
    (method : string) :
  is_superuser user = true ->
  In t targets ->
  pt_owner_id t <> user_id user ->
  ~ In method SAFE_METHODS ->
  In t (ParseTargetViewSet.get_queryset user targets) /\
  IsOwnerOrReadOnly.has_object_permission method
    (Some (pt_owner_id t)) (Some (user_id user)) = false /\
  IsOwnerOrReadOnly.has_object_permission "GET"
    (Some (pt_owner_id t)) (Some (user_id user)) = true.
Proof.
  intros Hs Hin Hne Hm. unfold ParseTargetViewSet.get_queryset. rewrite Hs.
  split; [exact Hin|]. split; [|reflexivity].
  unfold IsOwnerOrReadOnly.has_object_permission.
  destruct (existsb (String.eqb method) SAFE_METHODS) eqn:E.
  - exfalso. apply Hm. apply existsb_exists in E.
    destruct E as (m & Hmin & Hmeq). apply String.eqb_eq in Hmeq.
    subst m. exact Hmin.
  - simpl. apply Z.eqb_neq. exact Hne.
Qed.

Lemma superuser_reads_but_does_not_write_witness :
  is_superuser root = true /\
  In (target_of 7 10) toy_targets /\
  pt_owner_id (target_of 7 10) <> user_id root /\
  ~ In "DELETE" SAFE_METHODS /\
  IsOwnerOrReadOnly.has_object_permission "DELETE"
    (Some (pt_owner_id (target_of 7 10))) (Some (user_id root)) = false.
Proof.
  assert (In (target_of 7 10) toy_targets) as Hin by (left; reflexivity).
  assert (pt_owner_id (target_of 7 10) <> user_id root) as Hne
    by (simpl; discriminate).
  assert (~ In "DELETE" SAFE_METHODS) as Hm
    by (simpl; intros [H|[H|[H|[]]]]; discriminate H).
  split; [reflexivity|]. split; [exact Hin|]. split; [exact Hne|].
  split; [exact Hm|].
  apply (proj1 (proj2 (superuser_reads_but_does_not_write root toy_targets
                         (target_of 7 10) "DELETE" eq_refl Hin Hne Hm))).
Defined.

(** ** Ads *)

Section AdQueries.

Variable int_of_str : string -> option Z.
Variable instant : Type.
Variable parse_datetime : string -> option instant.
Variable posted_at_gte : json -> instant -> bool.

Lemma filter_target_incl target_id qs l :
  AdViewSet.filter_target int_of_str target_id qs = AdViewSet.Rows l ->
  incl l qs.
Proof.
  unfold AdViewSet.filter_target.
  destruct target_id as [s|]; [|intros H; inversion H; apply incl_refl].
  destruct (String.eqb s ""); [intros H; inversion H; apply incl_refl|].
  destruct (int_of_str s); [|discriminate].
  intros H. inversion H. apply incl_filter.
Qed.

Lemma filter_posted_incl posted qs l :
  AdViewSet.filter_posted instant parse_datetime posted_at_gte posted qs
  = AdViewSet.Rows l ->
  incl l qs.
Proof.
  unfold AdViewSet.filter_posted.
  destruct posted as [s|]; [|intros H; inversion H; apply incl_refl].
  destruct (String.eqb s ""); [intros H; inversion H; apply incl_refl|].
  destruct (parse_datetime s); [|discriminate].
  intros H. inversion H. apply incl_filter.
Qed.

Lemma filter_is_active_incl is_active qs :
  incl (AdViewSet.filter_is_active is_active qs) qs.
Proof.
  unfold AdViewSet.filter_is_active. destruct is_active.
  - apply incl_filter.
  - apply incl_refl.
Qed.

(** What a query that does not fail went through. *)
Lemma get_queryset_rows user params targets ads l :
  AdViewSet.get_queryset int_of_str instant parse_datetime posted_at_gte
    user params targets ads = AdViewSet.Rows l ->
  exists l1,
    AdViewSet.filter_target int_of_str (qp_target params)
      (if negb (is_superuser user)
       then filter (AdViewSet.owned_by user targets) ads else ads)
    = AdViewSet.Rows l1 /\
    AdViewSet.filter_posted instant parse_datetime posted_at_gte
      (qp_posted_at__gte params)
      (AdViewSet.filter_is_active (qp_is_active params) l1)
    = AdViewSet.Rows l.
Proof.
  unfold AdViewSet.get_queryset.
  destruct (AdViewSet.filter_target _ _ _) as [l1|e]; [|discriminate].
  intros H. exists l1. auto.
Qed.

End AdQueries.

Lemma owned_by_iff user targets a :
  AdViewSet.owned_by user targets a = true
  <-> exists t, In t targets /\ ad_target_id a = JNum (pt_id t) /\
                pt_owner_id t = user_id user.
Proof.
  unfold AdViewSet.owned_by, AdViewSet.has_target.
  rewrite existsb_exists. split.
  - intros (t & Hin & H). apply andb_true_iff in H. destruct H as [H1 H2].
    exists t. apply Z.eqb_eq in H2.
    destruct (ad_target_id a); try discriminate H1.
    apply Z.eqb_eq in H1. subst. auto.
  - intros (t & Hin & Ht & Ho). exists t. split; [exact Hin|].
    rewrite Ht, Ho, !Z.eqb_refl. reflexivity.
Qed.

(** X18.  A user who is no superuser is shown only ads whose target is
    one of the own targets, whatever the query parameters: never an ad
    of a target of somebody else, and never an ad without a target. *)
Theorem ads_of_own_targets_only
    (int_of_str : string -> option Z) (instant : Type)
    (parse_datetime : string -> option instant)
    (posted_at_gte : json -> instant -> bool)
    (user : User) (params : QueryParams) (targets : list ParseTarget)
    (ads l : list Ad) (a : Ad) :
  is_superuser user = false ->
  AdViewSet.get_queryset int_of_str instant parse_datetime posted_at_gte
    user params targets ads = AdViewSet.Rows l ->
  In a l ->
  In a ads /\
  ad_target_id a <> JNull /\
  exists t, In t targets /\ ad_target_id a = JNum (pt_id t) /\
            pt_owner_id t = user_id user.
Proof.
  intros Hu H Hin. apply get_queryset_rows in H.
  destruct H as (l1 & H1 & H2). rewrite Hu in H1. simpl in H1.
  apply filter_posted_incl in H2. apply filter_target_incl in H1.
  apply H2, filter_is_active_incl, H1, filter_In in Hin.
  destruct Hin as [Hin Ho]. apply owned_by_iff in Ho.
  split; [exact Hin|]. split; [|exact Ho].
  destruct Ho as (t & _ & -> & _). discriminate.
Qed.

(** X19.  Any [is_active] parameter filters: the ads shown are the ones
    whose flag is true when the parameter is [true] in whatever case,
    and the ones whose flag is false for any other text, the empty text
    included. *)
Theorem is_active_parameter
    (int_of_str : string -> option Z) (instant : Type)
    (parse_datetime : string -> option instant)
    (posted_at_gte : json -> instant -> bool)
    (user : User) (params : QueryParams) (targets : list ParseTarget)
    (ads l : list Ad) (a : Ad) (v : string) :
  qp_is_active params = Some v ->
  AdViewSet.get_queryset int_of_str instant parse_datetime posted_at_gte
    user params targets ads = AdViewSet.Rows l ->
  In a l ->
  (lower v = "true" -> ad_is_active a = JBool true) /\
  (lower v <> "true" -> ad_is_active a = JBool false).
Proof.
  intros Hv H Hin. apply get_queryset_rows in H.
  destruct H as (l1 & _ & H2). rewrite Hv in H2.
  apply filter_posted_incl in H2. apply H2 in Hin.
  unfold AdViewSet.filter_is_active in Hin. apply filter_In in Hin.
  destruct Hin as [_ Hin]. apply json_eqb_eq in Hin. rewrite Hin.
  split; intros E.
  - apply String.eqb_eq in E. rewrite E. reflexivity.
  - apply String.eqb_neq in E. rewrite E. reflexivity.
Qed.

Lemma ads_of_own_targets_only_witness :
  is_superuser olga = false /\
  AdViewSet.get_queryset toy_int Z toy_int toy_posted_at_gte olga no_params
    toy_targets toy_ads = AdViewSet.Rows [chair_row] /\
  In chair_row [chair_row] /\
  In chair_row toy_ads /\
  ad_target_id chair_row <> JNull /\
  exists t, In t toy_targets /\ ad_target_id chair_row = JNum (pt_id t) /\
            pt_owner_id t = user_id olga.
Proof.
  assert (In chair_row [chair_row]) as Hin by (left; reflexivity).
  split; [reflexivity|]. split; [reflexivity|]. split; [exact Hin|].
  apply (ads_of_own_targets_only toy_int Z toy_int toy_posted_at_gte olga
           no_params toy_targets toy_ads [chair_row] chair_row
           eq_refl eq_refl Hin).
Defined.

Lemma is_active_parameter_witness :
  qp_is_active (mkQueryParams None (Some "") None) = Some "" /\
  AdViewSet.get_queryset toy_int Z toy_int toy_posted_at_gte root
    (mkQueryParams None (Some "") None) toy_targets toy_ads
  = AdViewSet.Rows [sofa_row] /\
  In sofa_row [sofa_row] /\
  (lower "" <> "true" -> ad_is_active sofa_row = JBool false).
Proof.
  assert (In sofa_row [sofa_row]) as Hin by (left; reflexivity).
  split; [reflexivity|]. split; [reflexivity|]. split; [exact Hin|].
  apply (proj2 (is_active_parameter toy_int Z toy_int toy_posted_at_gte root
                  (mkQueryParams None (Some "") None) toy_targets toy_ads
                  [sofa_row] sofa_row "" eq_refl eq_refl Hin)).
Defined.

(** X20.  The edges of the query parameters.  An empty [target] and an
    empty [posted_at__gte] are no filter.  A [target] that is not empty
    and is no number fails the query with [ValueError], whatever the
    other parameters; with a usable target, a [posted_at__gte] that is
    not empty and is no instant fails it with [ValidationError]. *)
Theorem query_parameter_edges
    (int_of_str : string -> option Z) (instant : Type)
    (parse_datetime : string -> option instant)
    (posted_at_gte : json -> instant -> bool)
    (user : User) (targets : list ParseTarget) (ads : list Ad)
    (is_active : option string) :
  AdViewSet.get_queryset int_of_str instant parse_datetime posted_at_gte
    user (mkQueryParams (Some "") is_active (Some "")) targets ads
  = AdViewSet.get_queryset int_of_str instant parse_datetime posted_at_gte
      user (mkQueryParams None is_active None) targets ads
  /\
  (forall s posted,
      s <> "" -> int_of_str s = None ->
      AdViewSet.get_queryset int_of_str instant parse_datetime posted_at_gte
        user (mkQueryParams (Some s) is_active posted) targets ads
      = AdViewSet.Fails AdViewSet.ValueError)
  /\
  (forall target s,
      (target = None \/ target = Some "" \/
       exists t z, target = Some t /\ int_of_str t = Some z) ->
      s <> "" -> parse_datetime s = None ->
      AdViewSet.get_queryset int_of_str instant parse_datetime posted_at_gte
        user (mkQueryParams target is_active (Some s)) targets ads
      = AdViewSet.Fails AdViewSet.ValidationError).
Proof.
  unfold AdViewSet.get_queryset, AdViewSet.filter_target,
    AdViewSet.filter_posted. simpl. split; [reflexivity|]. split.
  - intros s posted Hs Hi. apply String.eqb_neq in Hs.
    rewrite Hs, Hi. reflexivity.
  - intros target s Ht Hs Hp. apply String.eqb_neq in Hs.
    destruct Ht as [->|[->|(t & z & -> & Hz)]]; simpl.
    + rewrite Hs, Hp. reflexivity.
    + rewrite Hs, Hp. reflexivity.
    + destruct (String.eqb t ""); [|rewrite Hz]; rewrite Hs, Hp; reflexivity.
Qed.

(** ** From the ingestion to the list *)

Lemma owned_by_target user targets t a :
  NoDup (map pt_id targets) -> In t targets ->
  ad_target_id a = JNum (pt_id t) ->
  (AdViewSet.owned_by user targets a = true
   <-> pt_owner_id t = user_id user).
Proof.
  intros Hnd Hin Ha. rewrite owned_by_iff. split.
  - intros (t' & Hin' & Ht' & Ho). rewrite Ha in Ht'.
    inversion Ht' as [E].
    assert (t = t') by (eapply NoDup_map_inj; eauto). subst t'. exact Ho.
  - intros Ho. exists t. auto.
Qed.

(** X21.  The target that ingested an ad last decides who sees it.
    After a committed batch for a target, whose key the batch gives as
    a number or as the text of one, the ad of every item that was
    processed is on the list (taken without parameters) of the owner of
    that target, and on the list of no other user who is no
    superuser. *)
Theorem ingested_ad_is_listed_for_the_owner
    (hexdigest : string -> string -> string)
    (decode_utf8 : string -> option string)
    (json_loads : string -> option json)
    (int_of_str : string -> option Z) (instant : Type)
    (parse_datetime : string -> option instant)
    (posted_at_gte : json -> instant -> bool)
    (settings : Settings) (request : Request) (now : string)
    (d : list (string * json)) (items : list json) (item : list (string * json))
    (db : Store) (resp : Response) (db' : Store)
    (targets : list ParseTarget) (t : ParseTarget) (user : User) :
  wf db ->
  authenticate hexdigest settings request = Ok true ->
  parse decode_utf8 json_loads request = Ok (Some (JObj d)) ->
  Py.iter (batch_items d) = Ok items ->
  ingest_avito hexdigest decode_utf8 json_loads settings request now db
  = (Ok resp, db') ->
  In (JObj item) items ->
  truthy (dict_get item "external_id" JNull) = true ->
  NoDup (map pt_id targets) ->
  In t targets ->
  fk_value (batch_target_id d) = JNum (pt_id t) ->
  is_superuser user = false ->
  exists a l,
    filter (ad_same_key (batch_source d) (dict_get item "external_id" JNull))
           (ad_rows db') = [a] /\
    AdViewSet.get_queryset int_of_str instant parse_datetime posted_at_gte
      user no_params targets (ad_rows db') = AdViewSet.Rows l /\
    (In a l <-> pt_owner_id t = user_id user).
Proof.
  intros Hwf Ha Hp Hit H Hin T Hnd Ht Htgt Hu.
  destruct (ingest_avito_committed _ _ _ _ _ _ _ _ _ _ Ha Hp H)
    as (c & Hw & _).
  apply batch_writes_ok in Hw. destruct Hw as (items' & Hit' & Hrun).
  rewrite Hit in Hit'. inversion Hit'; subst items'. clear Hit'.
  pose proof (for_each_stamps _ _ _ _ _ _ _ _ _ Hwf Hrun) as Hst.
  rewrite Forall_forall in Hst.
  destruct (Hst _ Hin T) as (a & F & Hta & _). simpl in F.
  exists a, (filter (AdViewSet.owned_by user targets) (ad_rows db')).
  split; [exact F|]. split.
  - unfold AdViewSet.get_queryset. rewrite Hu. reflexivity.
  - rewrite filter_In. rewrite Htgt in Hta.
    rewrite (owned_by_target user targets t a Hnd Ht Hta).
    apply filter_In_head in F. tauto.
Qed.

Lemma ingested_ad_is_listed_for_the_owner_witness :
  wf empty_store /\
  authenticate toy_hexdigest toy_settings (signed "mixed-batch") = Ok true /\
  parse toy_decode (toy_loads mixed_table) (signed "mixed-batch")
  = Ok (Some (JObj mixed_batch)) /\
  Py.iter (batch_items mixed_batch) = Ok [JObj chair; JObj chair_number] /\
  In (JObj chair) [JObj chair; JObj chair_number] /\
  truthy (dict_get chair "external_id" JNull) = true /\
  NoDup (map pt_id toy_targets) /\
  In (target_of 7 10) toy_targets /\
  fk_value (batch_target_id mixed_batch) = JNum (pt_id (target_of 7 10)) /\
  is_superuser pavel = false /\
  exists db',
    ingest_avito toy_hexdigest toy_decode (toy_loads mixed_table)
      toy_settings (signed "mixed-batch") "t1" empty_store
    = (Ok (accepted (mkCounters 1 1 1)), db') /\
    exists a l,
      filter (ad_same_key (JStr "avito") (JStr "123")) (ad_rows db') = [a] /\
      AdViewSet.get_queryset toy_int Z toy_int toy_posted_at_gte pavel
        no_params toy_targets (ad_rows db') = AdViewSet.Rows l /\
      (In a l <-> pt_owner_id (target_of 7 10) = user_id pavel).
Proof.
  assert (wf empty_store) as Hwf
    by (split; simpl; intros; try constructor; lia).
  assert (In (JObj chair) [JObj chair; JObj chair_number]) as Hin
    by (left; reflexivity).
  assert (NoDup (map pt_id toy_targets)) as Hnd.
  { simpl. constructor; [simpl; intros [E|[]]; discriminate E|].
    constructor; [simpl; tauto|constructor]. }
  assert (In (target_of 7 10) toy_targets) as Ht by (left; reflexivity).
  split; [exact Hwf|]. split; [reflexivity|]. split; [reflexivity|].
  split; [reflexivity|]. split; [exact Hin|]. split; [reflexivity|].
  split; [exact Hnd|]. split; [exact Ht|]. split; [reflexivity|].
  split; [reflexivity|].
  eexists. split; [vm_compute; reflexivity|].
  eapply (ingested_ad_is_listed_for_the_owner toy_hexdigest toy_decode
            (toy_loads mixed_table) toy_int Z toy_int toy_posted_at_gte
            toy_settings (signed "mixed-batch") "t1" mixed_batch
            [JObj chair; JObj chair_number] chair empty_store);
    [exact Hwf|reflexivity|reflexivity|reflexivity|vm_compute; reflexivity
    |exact Hin|reflexivity|exact Hnd|exact Ht|reflexivity|reflexivity].
Defined.
